(** * Market-making simulator: a shallow embedding and its properties

    The Python classes [OrderBook], [RiskManager], [MarketMaker],
    [PnLTracker] and [MarketSimulator] are embedded as records (one per
    class, one field per attribute) and their methods as computations in a
    small state-and-exception monad over the object they are called on.

    Numbers.  A Python [float] is idealised as an exact rational ([Q]):
    rounding, infinities and NaN are outside the model.  Python's [==],
    [<] and [<=] on numbers are the numeric comparisons, that is [Qeq],
    [Qlt] and [Qle].  What is kept of the float operations is that [x / y]
    raises [ZeroDivisionError] when [y == 0].

    Randomness.  The simulator draws from NumPy's process-wide generator
    ([np.random.seed], [np.random.random], [np.random.normal]).  NumPy is
    not part of the repository, so the generator is an interface
    ([NumpyRandom]); every property of the simulator is proved for an
    arbitrary implementation of it. *)

From Stdlib Require Import QArith Qabs Lqa Lia ZArith String List Bool.
Import ListNotations.

Local Open Scope Q_scope.

(** ** Python numerics *)

Module Py.

Definition lt (x y : Q) : bool := negb (Qle_bool y x).
Definition le (x y : Q) : bool := Qle_bool x y.
Definition gt (x y : Q) : bool := lt y x.
Definition eq (x y : Q) : bool := Qeq_bool x y.

Definition abs (x : Q) : Q := Qabs x.

(** [min(a, b)] and [max(a, b)] return the first argument unless the
    second is strictly smaller (resp. larger). *)
Definition min (a b : Q) : Q := if lt b a then b else a.
Definition max (a b : Q) : Q := if gt b a then b else a.

End Py.

(** ** Exceptions and the object monad *)

Inductive exn : Type :=
| ZeroDivisionError
| ValueError
| IndexError.

Inductive Res (A : Type) : Type :=
| Ok (a : A)
| Raise (e : exn).

Arguments Ok {A} a.
Arguments Raise {A} e.

(** A method called on an object of type [S]: it returns a value or raises,
    and leaves the object in a (possibly updated) state either way. *)
Definition M (S A : Type) : Type := S -> Res A * S.

Definition ret {S A} (a : A) : M S A := fun s => (Ok a, s).

Definition bind {S A B} (m : M S A) (f : A -> M S B) : M S B :=
  fun s =>
    match m s with
    | (Ok a, s') => f a s'
    | (Raise e, s') => (Raise e, s')
    end.

Definition gets {S A} (f : S -> A) : M S A := fun s => (Ok (f s), s).
Definition modify {S} (f : S -> S) : M S unit := fun s => (Ok tt, f s).
Definition raise {S A} (e : exn) : M S A := fun s => (Raise e, s).
Definition lift {S A} (r : Res A) : M S A := fun s => (r, s).

(** Run a method of a sub-object [T] reached through an attribute of [S]. *)
Definition zoom {S T A} (proj : S -> T) (upd : T -> S -> S) (m : M T A) : M S A :=
  fun s => let (r, t') := m (proj s) in (r, upd t' s).

Declare Scope py_scope.
Delimit Scope py_scope with py.
Notation "x <- c1 ;; c2" := (bind c1 (fun x => c2))
  (at level 61, c1 at next level, right associativity) : py_scope.
Notation "' pat <- c1 ;; c2" := (bind c1 (fun x => match x with pat => c2 end))
  (at level 61, pat pattern, c1 at next level, right associativity) : py_scope.
Notation "c1 ;; c2" := (bind c1 (fun _ => c2))
  (at level 61, right associativity) : py_scope.
Local Open Scope py_scope.

(** Python's true division [x / y] on floats. *)
Definition py_div (x y : Q) : Res Q :=
  if Py.eq y 0 then Raise ZeroDivisionError else Ok (x / y).

(** ** order_book.py *)

Module OrderBook.

Record t : Type := mk {
  mid_price : Q;
  spread : Q;
  depth_per_level : Q;
  num_levels : Z
}.

Definition init (initial_mid spread depth_per_level : Q) (num_levels : Z) : t :=
  mk initial_mid spread depth_per_level num_levels.

Definition set_mid_price (v : Q) (self : t) : t :=
  mk v (spread self) (depth_per_level self) (num_levels self).

Definition get_mid_price : M t Q := gets mid_price.

Definition get_best_bid : M t Q :=
  m <- gets mid_price ;; s <- gets spread ;; ret (m - s).

Definition get_best_ask : M t Q :=
  m <- gets mid_price ;; s <- gets spread ;; ret (m + s).


Definition get_depth_at_level (level : Z) : M t (Q * Q) :=
  n <- gets num_levels ;;
  if (level >=? n)%Z then ret (0, 0)
  else d <- gets depth_per_level ;; ret (d, d).

Definition update_mid_price (new_mid : Q) : M t unit :=
  modify (set_mid_price new_mid).

Definition execute_market_buy (quantity : Q) : M t (Q * Q) :=
  available_depth <- gets depth_per_level ;;
  let executed_qty := Py.min quantity available_depth in
  execution_price <- get_best_ask ;;
  (if Py.gt quantity available_depth then
     ratio <- lift (py_div quantity available_depth) ;;
     s <- gets spread ;;
     let price_impact := (ratio - 1) * s * (1 # 2) in
     m <- gets mid_price ;;
     modify (set_mid_price (m + price_impact))
   else ret tt) ;;
  ret (execution_price, executed_qty).

Definition execute_market_sell (quantity : Q) : M t (Q * Q) :=
  available_depth <- gets depth_per_level ;;
  let executed_qty := Py.min quantity available_depth in
  execution_price <- get_best_bid ;;
  (if Py.gt quantity available_depth then
     ratio <- lift (py_div quantity available_depth) ;;
     s <- gets spread ;;
     let price_impact := (ratio - 1) * s * (1 # 2) in
     m <- gets mid_price ;;
     modify (set_mid_price (m - price_impact))
   else ret tt) ;;
  ret (execution_price, executed_qty).

End OrderBook.

(** ** risk/risk_manager.py *)

Module RiskManager.

Record t : Type := mk {
  enable_kill_switch : bool;
  drawdown_limit : option Q;
  enable_size_throttle : bool;
  min_throttle : Q
}.

(** The constructor's defaults. *)
Definition default : t := mk false None true (2 # 10).

(** The five components of the tuple [apply] returns. *)
Record quote : Type := mkq {
  q_bid_price : Q;
  q_bid_size : Q;
  q_ask_price : Q;
  q_ask_size : Q;
  q_is_active : bool
}.

Definition apply (bid_price bid_size ask_price ask_size
                  inventory max_inventory cash_pnl : Q) : M t quote :=
  let is_active := true in
  eks <- gets enable_kill_switch ;;
  dl <- gets drawdown_limit ;;
  if eks && match dl with
            | Some d => Py.le cash_pnl (- Py.abs d)
            | None => false
            end
  then ret (mkq bid_price 0 ask_price 0 false)
  else
    est <- gets enable_size_throttle ;;
    ' (bid_size, ask_size) <-
      (if est && Py.gt max_inventory 0 then
         r <- lift (py_div (Py.abs inventory) max_inventory) ;;
         let inv_ratio := Py.min 1 r in
         mt <- gets min_throttle ;;
         let scale := Py.max mt (1 - inv_ratio) in
         ret (bid_size * scale, ask_size * scale)
       else ret (bid_size, ask_size)) ;;
    ret (mkq bid_price bid_size ask_price ask_size is_active).

End RiskManager.

(** ** strategy/market_maker.py *)

Module MarketMaker.

Record t : Type := mk {
  quote_spread : Q;
  quote_size : Q;
  max_inventory : Q;
  inventory_skew_factor : Q;
  risk_manager : option RiskManager.t;
  inventory : Q;
  total_buy_value : Q;
  total_sell_value : Q;
  total_bought : Q;
  total_sold : Q
}.

Definition init (quote_spread quote_size max_inventory inventory_skew_factor : Q)
                (risk_manager : option RiskManager.t) : t :=
  mk quote_spread quote_size max_inventory inventory_skew_factor risk_manager
     0 0 0 0 0.

Definition set_risk_manager (v : option RiskManager.t) (self : t) : t :=
  mk (quote_spread self) (quote_size self) (max_inventory self)
     (inventory_skew_factor self) v (inventory self) (total_buy_value self)
     (total_sell_value self) (total_bought self) (total_sold self).

Definition set_inventory (v : Q) (self : t) : t :=
  mk (quote_spread self) (quote_size self) (max_inventory self)
     (inventory_skew_factor self) (risk_manager self) v (total_buy_value self)
     (total_sell_value self) (total_bought self) (total_sold self).

Definition set_total_buy_value (v : Q) (self : t) : t :=
  mk (quote_spread self) (quote_size self) (max_inventory self)
     (inventory_skew_factor self) (risk_manager self) (inventory self) v
     (total_sell_value self) (total_bought self) (total_sold self).

Definition set_total_sell_value (v : Q) (self : t) : t :=
  mk (quote_spread self) (quote_size self) (max_inventory self)
     (inventory_skew_factor self) (risk_manager self) (inventory self)
     (total_buy_value self) v (total_bought self) (total_sold self).

Definition set_total_bought (v : Q) (self : t) : t :=
  mk (quote_spread self) (quote_size self) (max_inventory self)
     (inventory_skew_factor self) (risk_manager self) (inventory self)
     (total_buy_value self) (total_sell_value self) v (total_sold self).

Definition set_total_sold (v : Q) (self : t) : t :=
  mk (quote_spread self) (quote_size self) (max_inventory self)
     (inventory_skew_factor self) (risk_manager self) (inventory self)
     (total_buy_value self) (total_sell_value self) (total_bought self) v.

Definition get_inventory : M t Q := gets inventory.

Definition get_cash_pnl : M t Q :=
  sells <- gets total_sell_value ;;
  buys <- gets total_buy_value ;;
  ret (sells - buys).

Definition get_total_pnl (current_mid : Q) : M t Q :=
  buys <- gets total_buy_value ;;
  sells <- gets total_sell_value ;;
  let net_cost := buys - sells in
  inv <- gets inventory ;;
  let inventory_value := inv * current_mid in
  let unrealized_pnl := inventory_value - net_cost in
  ret unrealized_pnl.

(** [get_quotes(self, order_book)] runs on the pair of the two objects it
    can reach: the maker itself and the book it is handed. *)
Definition frame : Type := (t * OrderBook.t)%type.

Definition on_self {A} (m : M t A) : M frame A :=
  zoom fst (fun v s => (v, snd s)) m.

Definition on_order_book {A} (m : M OrderBook.t A) : M frame A :=
  zoom snd (fun v s => (fst s, v)) m.

(** A call on the attached risk manager [rm] (a reference held in
    [self.risk_manager]). *)
Definition on_risk_manager {A} (rm : RiskManager.t) (m : M RiskManager.t A) : M t A :=
  fun self => let (r, rm') := m rm in (r, set_risk_manager (Some rm') self).

Definition get_quotes : M frame (Q * Q * Q * Q) :=
  mid <- on_order_book OrderBook.get_mid_price ;;
  inv <- on_self (gets inventory) ;;
  skew_factor <- on_self (gets inventory_skew_factor) ;;
  let inventory_skew := inv * skew_factor in
  qspread <- on_self (gets quote_spread) ;;
  let bid_price := mid - qspread - inventory_skew in
  let ask_price := mid + qspread + inventory_skew in
  qsize <- on_self (gets quote_size) ;;
  max_inv <- on_self (gets max_inventory) ;;
  let bid_size := if Py.le (Py.abs (inv + qsize)) max_inv then qsize else 0 in
  let ask_size := if Py.le (Py.abs (inv - qsize)) max_inv then qsize else 0 in
  rm <- on_self (gets risk_manager) ;;
  match rm with
  | Some rm =>
      cash <- on_self get_cash_pnl ;;
      q <- on_self (on_risk_manager rm
             (RiskManager.apply bid_price bid_size ask_price ask_size
                                inv max_inv cash)) ;;
      ret (RiskManager.q_bid_price q, RiskManager.q_bid_size q,
           RiskManager.q_ask_price q, RiskManager.q_ask_size q)
  | None => ret (bid_price, bid_size, ask_price, ask_size)
  end.

Definition execute_bid_fill (price quantity : Q) : M t unit :=
  inv <- gets inventory ;;
  modify (set_inventory (inv + quantity)) ;;
  buys <- gets total_buy_value ;;
  modify (set_total_buy_value (buys + price * quantity)) ;;
  bought <- gets total_bought ;;
  modify (set_total_bought (bought + quantity)).

Definition execute_ask_fill (price quantity : Q) : M t unit :=
  inv <- gets inventory ;;
  modify (set_inventory (inv - quantity)) ;;
  sells <- gets total_sell_value ;;
  modify (set_total_sell_value (sells + price * quantity)) ;;
  sold <- gets total_sold ;;
  modify (set_total_sold (sold + quantity)).

(** [Optional[float]]: [None] is a returned value, distinct from a raised
    exception. *)
Definition get_average_buy_price : M t (option Q) :=
  bought <- gets total_bought ;;
  if Py.eq bought 0 then ret None
  else
    buys <- gets total_buy_value ;;
    avg <- lift (py_div buys bought) ;;
    ret (Some avg).

Definition get_average_sell_price : M t (option Q) :=
  sold <- gets total_sold ;;
  if Py.eq sold 0 then ret None
  else
    sells <- gets total_sell_value ;;
    avg <- lift (py_div sells sold) ;;
    ret (Some avg).

End MarketMaker.

(** ** Loops and indexing *)

(** [for x in xs: acc = body(acc, x)], the loop's locals threaded as [acc]. *)
Fixpoint for_each {S A X} (xs : list X) (body : A -> X -> M S A) (acc : A) : M S A :=
  match xs with
  | [] => ret acc
  | x :: xs' => acc' <- body acc x ;; for_each xs' body acc'
  end.

(** [range(n)] and [range(lo, hi)]. *)
Definition range (n : nat) : list nat := seq 0 n.
Definition range_from (lo hi : nat) : list nat := seq lo (hi - lo).

(** [l[i]] for a non-negative index. *)
Definition py_index {A} (l : list A) (i : nat) : Res A :=
  match nth_error l i with
  | Some a => Ok a
  | None => Raise IndexError
  end.

(** ** analytics/pnl_tracker.py *)

Module PnLTracker.

(** The dict [record_trade] appends. *)
Record trade : Type := mk_trade {
  timestamp : Q;
  side : string;
  price : Q;
  quantity : Q;
  mid_price : Q;
  spread_vs_mid : Q
}.

Record t : Type := mk {
  trades : list trade;
  inventory_snapshots : list (Q * Q * Q)
}.

Definition init : t := mk [] [].

Definition record_trade (timestamp : Q) (side : string)
                        (price quantity mid_price : Q) : M t unit :=
  modify (fun self =>
    mk (trades self ++
          [mk_trade timestamp side price quantity mid_price
             (if String.eqb side "sell" then price - mid_price
              else mid_price - price)])
       (inventory_snapshots self)).

Definition record_inventory_snapshot (timestamp inventory mid_price : Q) : M t unit :=
  modify (fun self =>
    mk (trades self)
       (inventory_snapshots self ++ [(timestamp, inventory, mid_price)])).

Definition get_spread_capture : M t Q :=
  ts <- gets trades ;;
  ret (fold_left (fun acc tr => acc + spread_vs_mid tr * quantity tr) ts 0).

Definition get_inventory_pnl : M t Q :=
  snaps <- gets inventory_snapshots ;;
  if (length snaps <? 2)%nat then ret 0
  else
    for_each (range_from 1 (length snaps))
      (fun inventory_pnl i =>
         ' (_, prev_inv, prev_mid) <- lift (py_index snaps (i - 1)) ;;
         ' (_, _, curr_mid) <- lift (py_index snaps i) ;;
         let price_change := curr_mid - prev_mid in
         ret (inventory_pnl + prev_inv * price_change))
      0.

Definition get_adverse_selection_cost : M t Q :=
  ts <- gets trades ;;
  if (length ts <? 2)%nat then ret 0
  else
    adverse_selection <-
      for_each (range (length ts - 1))
        (fun adverse_selection i =>
           trade <- lift (py_index ts i) ;;
           next_trade <- lift (py_index ts (i + 1)) ;;
           let price_move := mid_price next_trade - mid_price trade in
           if String.eqb (side trade) "buy" && Py.lt price_move 0 then
             ret (adverse_selection + Py.abs price_move * quantity trade)
           else if String.eqb (side trade) "sell" && Py.gt price_move 0 then
             ret (adverse_selection + Py.abs price_move * quantity trade)
           else ret adverse_selection)
        0 ;;
    ret (- adverse_selection).

(** The dict [get_pnl_decomposition] returns. *)
Record decomposition : Type := mk_decomposition {
  d_spread_capture : Q;
  d_inventory_pnl : Q;
  d_adverse_selection : Q;
  d_total_pnl : Q
}.

Definition get_pnl_decomposition : M t decomposition :=
  spread_capture <- get_spread_capture ;;
  inventory_pnl <- get_inventory_pnl ;;
  adverse_selection <- get_adverse_selection_cost ;;
  ret (mk_decomposition spread_capture inventory_pnl adverse_selection
         (spread_capture + inventory_pnl + adverse_selection)).

(** [sum(1 for t in trades if t['side'] == s)] *)
Definition count_side (s : string) (ts : list trade) : nat :=
  fold_left (fun n tr => if String.eqb (side tr) s then (n + 1)%nat else n) ts 0%nat.

Definition get_trade_count : M t (nat * nat) :=
  ts <- gets trades ;;
  let num_buys := count_side "buy" ts in
  let num_sells := count_side "sell" ts in
  ret (num_buys, num_sells).

End PnLTracker.

(** ** NumPy's random generator *)

(** What the simulator uses of [numpy]: the state of the process-wide
    generator, the state [np.random.seed(s)] installs, the draws
    [np.random.random()] and [np.random.normal(loc, scale)] (which raises
    [ValueError] on a scale it rejects), and [np.sqrt]. *)
Class NumpyRandom : Type := {
  rng : Type;
  np_seed : Z -> rng;
  np_random : rng -> Q * rng;
  np_normal : Q -> Q -> rng -> Res Q * rng;
  np_sqrt : Q -> Q
}.

(** ** engine/simulator.py *)

Module MarketSimulator.

(** The dict [step] appends to [history] and returns. *)
Record step_data : Type := mk_step {
  sd_time : Q;
  sd_mid_price : Q;
  sd_bid_price : Q;
  sd_ask_price : Q;
  sd_inventory : Q;
  sd_trade_occurred : bool;
  sd_trade_side : option string;
  sd_trade_price : option Q;
  sd_trade_quantity : option Q;
  sd_cash_pnl : Q;
  sd_total_pnl : Q
}.

Record t : Type := mk {
  order_book : OrderBook.t;
  market_maker : MarketMaker.t;
  pnl_tracker : PnLTracker.t;
  current_time : Q;
  history : list step_data
}.

Definition set_order_book (v : OrderBook.t) (self : t) : t :=
  mk v (market_maker self) (pnl_tracker self) (current_time self) (history self).
Definition set_market_maker (v : MarketMaker.t) (self : t) : t :=
  mk (order_book self) v (pnl_tracker self) (current_time self) (history self).
Definition set_pnl_tracker (v : PnLTracker.t) (self : t) : t :=
  mk (order_book self) (market_maker self) v (current_time self) (history self).
Definition set_current_time (v : Q) (self : t) : t :=
  mk (order_book self) (market_maker self) (pnl_tracker self) v (history self).
Definition set_history (v : list step_data) (self : t) : t :=
  mk (order_book self) (market_maker self) (pnl_tracker self) (current_time self) v.

(** The dict [get_summary] returns when the history is not empty. *)
Record summary : Type := mk_summary {
  sm_total_steps : nat;
  sm_final_time : Q;
  sm_initial_mid : Q;
  sm_final_mid : Q;
  sm_price_change : Q;
  sm_final_inventory : Q;
  sm_num_trades : nat;
  sm_num_buys : nat;
  sm_num_sells : nat;
  sm_cash_pnl : Q;
  sm_total_pnl : Q;
  sm_spread_capture : Q;
  sm_inventory_pnl : Q;
  sm_adverse_selection : Q
}.

(** [get_summary]; [None] stands for the empty dict returned on an empty
    history. *)
Definition get_summary : M t (option summary) :=
  h <- gets history ;;
  match h with
  | [] => ret None
  | _ :: _ =>
      pnl_decomp <- zoom pnl_tracker set_pnl_tracker PnLTracker.get_pnl_decomposition ;;
      ' (num_buys, num_sells) <-
        zoom pnl_tracker set_pnl_tracker PnLTracker.get_trade_count ;;
      final_state <- lift (py_index h (length h - 1)) ;;
      first_state <- lift (py_index h 0) ;;
      now <- gets current_time ;;
      ret (Some (mk_summary
                   (length h)
                   now
                   (sd_mid_price first_state)
                   (sd_mid_price final_state)
                   (sd_mid_price final_state - sd_mid_price first_state)
                   (sd_inventory final_state)
                   (num_buys + num_sells)%nat
                   num_buys
                   num_sells
                   (sd_cash_pnl final_state)
                   (sd_total_pnl final_state)
                   (PnLTracker.d_spread_capture pnl_decomp)
                   (PnLTracker.d_inventory_pnl pnl_decomp)
                   (PnLTracker.d_adverse_selection pnl_decomp)))
  end.

Section WithGenerator.

Context {NP : NumpyRandom}.

(** A method of the simulator runs on the process-wide generator state
    together with the simulator object. *)
Definition world : Type := (rng * t)%type.

Definition on_np {A} (m : M rng A) : M world A :=
  zoom fst (fun v w => (v, snd w)) m.
Definition on_self {A} (m : M t A) : M world A :=
  zoom snd (fun v w => (fst w, v)) m.
Definition on_order_book {A} (m : M OrderBook.t A) : M world A :=
  on_self (zoom order_book set_order_book m).
Definition on_market_maker {A} (m : M MarketMaker.t A) : M world A :=
  on_self (zoom market_maker set_market_maker m).
Definition on_pnl_tracker {A} (m : M PnLTracker.t A) : M world A :=
  on_self (zoom pnl_tracker set_pnl_tracker m).
(** [self.market_maker.get_quotes(self.order_book)] *)
Definition on_maker_and_book {A} (m : M MarketMaker.frame A) : M world A :=
  on_self (zoom (fun s => (market_maker s, order_book s))
                (fun v s => set_order_book (snd v) (set_market_maker (fst v) s))
                m).

Definition random : M rng Q := fun g => let (u, g') := np_random g in (Ok u, g').
Definition normal (loc scale : Q) : M rng Q := np_normal loc scale.

(** [MarketSimulator(order_book, market_maker, pnl_tracker, random_seed)]:
    the constructor runs on the process-wide generator and returns the
    new object. *)
Definition init (order_book : OrderBook.t) (market_maker : MarketMaker.t)
                (pnl_tracker : PnLTracker.t) (random_seed : option Z) : M rng t :=
  match random_seed with
  | Some s => modify (fun _ => np_seed s)
  | None => ret tt
  end ;;
  ret (mk order_book market_maker pnl_tracker 0 []).

Definition simulate_price_move (volatility dt : Q) : M world unit :=
  current_mid <- on_order_book OrderBook.get_mid_price ;;
  z <- on_np (normal 0 (volatility * np_sqrt dt)) ;;
  let price_change := z * current_mid in
  let new_mid := current_mid + price_change in
  on_order_book (OrderBook.update_mid_price new_mid).

Definition simulate_order_flow (arrival_rate : Q) : M world (option string) :=
  u <- on_np random ;;
  if Py.lt u arrival_rate then
    v <- on_np random ;;
    ret (Some (if Py.lt v (1 # 2) then "buy" else "sell")%string)
  else ret None.

Definition is_side (o : option string) (s : string) : bool :=
  match o with
  | Some x => String.eqb x s
  | None => false
  end.

Definition step (volatility arrival_rate dt : Q) : M world step_data :=
  t0 <- on_self (gets current_time) ;;
  on_self (modify (set_current_time (t0 + dt))) ;;
  initial_mid <- on_order_book OrderBook.get_mid_price ;;
  initial_inventory <- on_market_maker MarketMaker.get_inventory ;;
  ' (bid_price, bid_size, ask_price, ask_size) <-
    on_maker_and_book MarketMaker.get_quotes ;;
  order_side <- simulate_order_flow arrival_rate ;;
  ' (trade_occurred, trade_side, trade_price, trade_quantity) <-
    (if is_side order_side "buy" && Py.gt ask_size 0 then
       on_market_maker (MarketMaker.execute_ask_fill ask_price ask_size) ;;
       now <- on_self (gets current_time) ;;
       on_pnl_tracker
         (PnLTracker.record_trade now "sell" ask_price ask_size initial_mid) ;;
       ret (true, Some "sell"%string, Some ask_price, Some ask_size)
     else if is_side order_side "sell" && Py.gt bid_size 0 then
       on_market_maker (MarketMaker.execute_bid_fill bid_price bid_size) ;;
       now <- on_self (gets current_time) ;;
       on_pnl_tracker
         (PnLTracker.record_trade now "buy" bid_price bid_size initial_mid) ;;
       ret (true, Some "buy"%string, Some bid_price, Some bid_size)
     else ret (false, None, None, None)) ;;
  simulate_price_move volatility dt ;;
  current_mid <- on_order_book OrderBook.get_mid_price ;;
  current_inventory <- on_market_maker MarketMaker.get_inventory ;;
  now <- on_self (gets current_time) ;;
  on_pnl_tracker
    (PnLTracker.record_inventory_snapshot now current_inventory current_mid) ;;
  cash <- on_market_maker MarketMaker.get_cash_pnl ;;
  total <- on_market_maker (MarketMaker.get_total_pnl current_mid) ;;
  let data :=
    mk_step now current_mid bid_price ask_price current_inventory
            trade_occurred trade_side trade_price trade_quantity cash total in
  h <- on_self (gets history) ;;
  on_self (modify (set_history (h ++ [data]))) ;;
  ret data.

(** [run] with [verbose=False]. *)
Definition run (num_steps : nat) (volatility arrival_rate dt : Q)
  : M world (list step_data) :=
  for_each (range num_steps)
    (fun (_ : unit) (_ : nat) =>
       step volatility arrival_rate dt ;; ret tt)
    tt ;;
  on_self (gets history).

End WithGenerator.

End MarketSimulator.

(** * Definitions used in the statements *)

(** ** Repeated calls *)

(** [n] consecutive calls of [m], their results collected in order. *)
Fixpoint call_n {S A} (n : nat) (m : M S A) : M S (list A) :=
  match n with
  | O => ret []
  | Datatypes.S n' => a <- m ;; rest <- call_n n' m ;; ret (a :: rest)
  end.

(** ** Raw quotes *)

(** The quotes computed before any risk manager is consulted. *)
Definition raw_bid_price (self : MarketMaker.t) (mid : Q) : Q :=
  mid - MarketMaker.quote_spread self
  - MarketMaker.inventory self * MarketMaker.inventory_skew_factor self.

Definition raw_ask_price (self : MarketMaker.t) (mid : Q) : Q :=
  mid + MarketMaker.quote_spread self
  + MarketMaker.inventory self * MarketMaker.inventory_skew_factor self.

Definition raw_bid_size (self : MarketMaker.t) : Q :=
  if Py.le (Py.abs (MarketMaker.inventory self + MarketMaker.quote_size self))
           (MarketMaker.max_inventory self)
  then MarketMaker.quote_size self else 0.

Definition raw_ask_size (self : MarketMaker.t) : Q :=
  if Py.le (Py.abs (MarketMaker.inventory self - MarketMaker.quote_size self))
           (MarketMaker.max_inventory self)
  then MarketMaker.quote_size self else 0.

(** ** Objects of the examples *)

Definition default_book : OrderBook.t := OrderBook.init 100 (1 # 10) 100 5.

(** The maker after the round trip of the spec: buy 10 at 99.95, then sell
    10 at 100.05. *)
Definition round_trip_maker : MarketMaker.t :=
  let m0 := MarketMaker.init (5 # 100) 10 100 (1 # 100) None in
  let m1 := snd (MarketMaker.execute_bid_fill (9995 # 100) 10 m0) in
  snd (MarketMaker.execute_ask_fill (10005 # 100) 10 m1).

(** The maker of the spec's suppression example: inventory 95 with a limit
    of 100 and a quote size of 10. *)
Definition long_maker : MarketMaker.t :=
  MarketMaker.set_inventory 95 (MarketMaker.init (5 # 100) 10 100 (1 # 100) None).

(** The maker after the fills of the repository's average-price test: two
    buys of 10 at 99.90 and 100.00, one sale of 5 at 100.10. *)
Definition traded_maker : MarketMaker.t :=
  let m0 := MarketMaker.init (5 # 100) 10 100 (1 # 100) None in
  let m1 := snd (MarketMaker.execute_bid_fill (9990 # 100) 10 m0) in
  let m2 := snd (MarketMaker.execute_bid_fill 100 10 m1) in
  snd (MarketMaker.execute_ask_fill (10010 # 100) 5 m2).

(** A maker with the combined risk manager of the repository's tests
    (kill switch at 50, throttle floor 0.3) attached, holding 50 units. *)
Definition managed_maker : MarketMaker.t :=
  MarketMaker.set_inventory 50
    (MarketMaker.init (5 # 100) 10 100 (1 # 100)
       (Some (RiskManager.mk true (Some 50) true (3 # 10)))).

(** ** Adverse selection, as the spec words it *)

(** The cost the spec attaches to a pair of consecutive trades
    [(t, t_next)]: with [move = t_next.mid_price - t.mid_price], it is
    [|move| * t.quantity] when [t] is a buy and [move < 0], or [t] is a sell
    and [move > 0], and nothing otherwise. *)
Definition adverse_pair_cost (t t_next : PnLTracker.trade) : Q :=
  let move := PnLTracker.mid_price t_next - PnLTracker.mid_price t in
  if (String.eqb (PnLTracker.side t) "buy" && Py.lt move 0)
     || (String.eqb (PnLTracker.side t) "sell" && Py.gt move 0)
  then Qabs move * PnLTracker.quantity t
  else 0.

(** The sum of [adverse_pair_cost] over the consecutive pairs of a ledger,
    in the order the trades were recorded. *)
Fixpoint adverse_pairs_sum (ts : list PnLTracker.trade) : Q :=
  match ts with
  | t :: (t_next :: _) as rest => adverse_pair_cost t t_next + adverse_pairs_sum rest
  | _ => 0
  end.

(** The body of the loop of [get_adverse_selection_cost] over the ledger
    [ts]. *)
Definition adverse_loop_body (ts : list PnLTracker.trade)
  : Q -> nat -> M PnLTracker.t Q :=
  fun adverse_selection i =>
    trade <- lift (py_index ts i) ;;
    next_trade <- lift (py_index ts (i + 1)) ;;
    let price_move := PnLTracker.mid_price next_trade - PnLTracker.mid_price trade in
    if String.eqb (PnLTracker.side trade) "buy" && Py.lt price_move 0 then
      ret (adverse_selection + Py.abs price_move * PnLTracker.quantity trade)
    else if String.eqb (PnLTracker.side trade) "sell" && Py.gt price_move 0 then
      ret (adverse_selection + Py.abs price_move * PnLTracker.quantity trade)
    else ret adverse_selection.

(** The ledger of the spec's example: a buy of 10 at 100 (mid 100) followed
    by a sell of 10 at 99 (mid 99). *)
Definition example_ledger : PnLTracker.t :=
  let l1 := snd (PnLTracker.record_trade 1 "buy" 100 10 100 PnLTracker.init) in
  snd (PnLTracker.record_trade 2 "sell" 99 10 99 l1).

(** ** The position limit *)

(** [|inventory| <= max_inventory]. *)
Definition within_limit (maker : MarketMaker.t) : Prop :=
  Qabs (MarketMaker.inventory maker) <= MarketMaker.max_inventory maker.

(** The configurations the position limit is claimed for: a quote size that
    is not negative, a positive limit and, when a risk manager is attached,
    a throttle floor in (0, 1]. *)
Definition limit_config (maker : MarketMaker.t) : Prop :=
  0 <= MarketMaker.quote_size maker /\
  0 < MarketMaker.max_inventory maker /\
  match MarketMaker.risk_manager maker with
  | Some rm => 0 < RiskManager.min_throttle rm /\ RiskManager.min_throttle rm <= 1
  | None => True
  end.

(** The arguments [(volatility, arrival_rate, dt)] of one call of [step]. *)
Definition step_args : Type := (Q * Q * Q)%type.

(** The worlds reached after each of a sequence of calls of [step], in
    order.  A call that raises leaves the world as it was when the exception
    left [step]; the caller may go on calling. *)
Fixpoint step_trace {NP : NumpyRandom} (calls : list step_args)
         (w : MarketSimulator.world) : list MarketSimulator.world :=
  match calls with
  | [] => []
  | (volatility, arrival_rate, dt) :: rest =>
      let w' := snd (MarketSimulator.step volatility arrival_rate dt w) in
      w' :: step_trace rest w'
  end.

(** ** Runs of the simulator *)

Section Runs.

Context {NP : NumpyRandom}.

Variables (book : OrderBook.t) (maker : MarketMaker.t) (tracker : PnLTracker.t).
Variable seed : Z.
Variable num_steps : nat.
Variables volatility arrival_rate dt : Q.

(** [sim.run(num_steps, volatility, arrival_rate, dt)] as a computation on
    the process-wide generator; the history is what the caller keeps. *)
Definition run_on (sim : MarketSimulator.t) : M rng (list MarketSimulator.step_data) :=
  fun g =>
    let '(r, (g', _)) :=
      MarketSimulator.run num_steps volatility arrival_rate dt (g, sim) in
    (r, g').

(** [sim = MarketSimulator(book, maker, tracker, random_seed=seed)] followed
    at once by [sim.run(...)]. *)
Definition construct_and_run : M rng (list MarketSimulator.step_data) :=
  sim <- MarketSimulator.init book maker tracker (Some seed) ;;
  run_on sim.

(** The order of the repository's determinism test: the first simulator is
    constructed and run, then the second is constructed and run. *)
Definition one_after_the_other
  : M rng (list MarketSimulator.step_data * list MarketSimulator.step_data) :=
  history1 <- construct_and_run ;;
  history2 <- construct_and_run ;;
  ret (history1, history2).

(** Both simulators are constructed, then each is run. *)
Definition construct_both_then_run
  : M rng (list MarketSimulator.step_data * list MarketSimulator.step_data) :=
  sim1 <- MarketSimulator.init book maker tracker (Some seed) ;;
  sim2 <- MarketSimulator.init book maker tracker (Some seed) ;;
  history1 <- run_on sim1 ;;
  history2 <- run_on sim2 ;;
  ret (history1, history2).

(** The generator after the draws of one step, in their order: the arrival
    draw, the direction draw when the order arrived, the price-move draw. *)
Definition draws_of_step (g : rng) : rng :=
  let (u, g1) := np_random g in
  let g2 := if Py.lt u arrival_rate then snd (np_random g1) else g1 in
  snd (np_normal 0 (volatility * np_sqrt dt) g2).

End Runs.

(** The [(mid_price, inventory)] sequence of a history. *)
Definition mid_and_inventory (history : list MarketSimulator.step_data)
  : list (Q * Q) :=
  map (fun d => (MarketSimulator.sd_mid_price d, MarketSimulator.sd_inventory d))
      history.

(** ** A generator to run the model on *)

(** An implementation of [NumpyRandom] on which the simulator can be
    evaluated; it is not NumPy's generator.  The state is a counter:
    [random()] returns a quarter of the counter modulo 4 and [normal]
    returns [loc - scale], [loc] or [loc + scale] in turn, each draw
    advancing the counter by one; a negative scale is rejected.  [sqrt] is
    exact at 0 and 1, the only arguments it is used at. *)
Definition counter_generator : NumpyRandom := {|
  rng := Z;
  np_seed := fun s => s;
  np_random := fun g => (inject_Z (g mod 4) / 4, (g + 1)%Z);
  np_normal := fun loc scale g =>
    if Py.lt scale 0 then (Raise ValueError, g)
    else (Ok (loc + scale * inject_Z (g mod 3 - 1)), (g + 1)%Z);
  np_sqrt := fun x => x
|}.

(** The maker of the repository's tests and example. *)
Definition default_maker : MarketMaker.t :=
  MarketMaker.init (5 # 100) 10 100 (1 # 100) None.

(** A simulator whose maker is near its limit and throttled. *)
Definition managed_simulator : MarketSimulator.t :=
  MarketSimulator.mk default_book
    (MarketMaker.set_inventory 95
       (MarketMaker.init (5 # 100) 10 100 (1 # 100)
          (Some (RiskManager.mk true (Some 50) true (3 # 10)))))
    PnLTracker.init 0 [].

(** Two [(mid_price, inventory)] sequences are identical: same length and,
    position by position, numerically equal mid prices and inventories. *)
Definition same_sequence (s1 s2 : list (Q * Q)) : Prop :=
  Forall2 (fun p q => fst p == fst q /\ snd p == snd q) s1 s2.

(** ** Sequences of fills *)










(** ** The kill switch *)

(** The kill switch is enabled, a drawdown limit is set and the cash PnL is
    at or below minus its absolute value. *)
Definition kill_switch_triggered (rm : RiskManager.t) (cash_pnl : Q) : Prop :=
  RiskManager.enable_kill_switch rm = true /\
  exists limit,
    RiskManager.drawdown_limit rm = Some limit /\ cash_pnl <= - Qabs limit.

(** The combined manager of the repository's tests: kill switch at 50,
    throttle floor 0.3. *)
Definition combined_manager : RiskManager.t :=
  RiskManager.mk true (Some 50) true (3 # 10).

(** ** The ledger against the maker *)

(** The signed quantity of a recorded trade: bought quantities count
    positive, sold ones negative. *)
Definition signed_quantity (tr : PnLTracker.trade) : Q :=
  if String.eqb (PnLTracker.side tr) "buy" then PnLTracker.quantity tr
  else if String.eqb (PnLTracker.side tr) "sell" then - PnLTracker.quantity tr
  else 0.


(** The position and the cash the ledger accounts for. *)
Definition ledger_position (ts : list PnLTracker.trade) : Q :=
  fold_right (fun tr acc => signed_quantity tr + acc) 0 ts.


(** The trade [step] records when the maker's ask, resp. bid, is filled at
    time [now] while the mid is [mid]. *)
Definition sell_trade (now price quantity mid : Q) : PnLTracker.trade :=
  PnLTracker.mk_trade now "sell" price quantity mid (price - mid).

Definition buy_trade (now price quantity mid : Q) : PnLTracker.trade :=
  PnLTracker.mk_trade now "buy" price quantity mid (mid - price).



(** A simulator whose maker has lost 60 in cash, with the combined manager
    attached: the kill switch (limit 50) is triggered. *)
Definition killed_simulator : MarketSimulator.t :=
  MarketSimulator.mk default_book
    (MarketMaker.set_total_buy_value 60
       (MarketMaker.init (5 # 100) 10 100 (1 # 100) (Some combined_manager)))
    PnLTracker.init 0 [].

(** A simulator as the repository's tests construct it. *)
Definition test_simulator : MarketSimulator.t :=
  MarketSimulator.mk default_book default_maker PnLTracker.init 0 [].

(** Four calls of [step] with the default volatility and time step. *)
Definition test_calls : list step_args :=
  [(1 # 100, 1, 1); (1 # 100, 1, 1); (1 # 100, 1 # 2, 1); (1 # 100, 1, 1)].

(** ** Inventory PnL, as a sum over consecutive snapshots *)

(** The sum, over the consecutive pairs [(prev, curr)] of snapshots, of
    the inventory of [prev] times the change of the mid from [prev] to
    [curr]. *)
Fixpoint inventory_pairs_sum (snaps : list (Q * Q * Q)) : Q :=
  match snaps with
  | prev :: (curr :: _) as rest =>
      snd (fst prev) * (snd curr - snd prev) + inventory_pairs_sum rest
  | _ => 0
  end.

(** The body of the loop of [get_inventory_pnl] over the snapshots
    [snaps]. *)
Definition inventory_loop_body (snaps : list (Q * Q * Q))
  : Q -> nat -> M PnLTracker.t Q :=
  fun inventory_pnl i =>
    ' (_, prev_inv, prev_mid) <- lift (py_index snaps (i - 1)) ;;
    ' (_, _, curr_mid) <- lift (py_index snaps i) ;;
    let price_change := curr_mid - prev_mid in
    ret (inventory_pnl + prev_inv * price_change).

(** The snapshots of the spec's example: inventory 10 at mid 100, then
    inventory 10 at mid 101. *)
Definition example_snapshots : PnLTracker.t :=
  let l1 := snd (PnLTracker.record_inventory_snapshot 1 10 100 PnLTracker.init) in
  snd (PnLTracker.record_inventory_snapshot 2 10 101 l1).

(** A trade's side is one of the two the simulator records. *)
Definition known_side (tr : PnLTracker.trade) : Prop :=
  PnLTracker.side tr = "buy"%string \/ PnLTracker.side tr = "sell"%string.

(** * Properties *)

(** ** Comparisons, [min] and [max] *)

Module PyFacts.

Lemma lt_spec x y : reflect (x < y) (Py.lt x y).
Proof.
  unfold Py.lt. destruct (Qle_bool y x) eqn:E; simpl; constructor.
  - apply Qle_bool_iff in E. lra.
  - destruct (Qlt_le_dec x y) as [H|H]; [exact H|].
    apply Qle_bool_iff in H. congruence.
Qed.

Lemma gt_spec x y : reflect (y < x) (Py.gt x y).
Proof. apply lt_spec. Qed.

Lemma le_spec x y : reflect (x <= y) (Py.le x y).
Proof.
  unfold Py.le. destruct (Qle_bool x y) eqn:E; constructor.
  - now apply Qle_bool_iff.
  - intro H. apply Qle_bool_iff in H. congruence.
Qed.

Lemma eq_spec x y : reflect (x == y) (Py.eq x y).
Proof.
  unfold Py.eq. destruct (Qeq_bool x y) eqn:E; constructor.
  - now apply Qeq_bool_iff.
  - intro H. apply Qeq_bool_iff in H. congruence.
Qed.

Lemma min_le_l a b : Py.min a b <= a.
Proof. unfold Py.min. destruct (lt_spec b a); lra. Qed.

Lemma min_le_r a b : Py.min a b <= b.
Proof. unfold Py.min. destruct (lt_spec b a); lra. Qed.

Lemma min_glb a b c : c <= a -> c <= b -> c <= Py.min a b.
Proof. unfold Py.min. destruct (lt_spec b a); lra. Qed.

Lemma max_ge_l a b : a <= Py.max a b.
Proof. unfold Py.max. destruct (gt_spec b a); lra. Qed.

Lemma max_ge_r a b : b <= Py.max a b.
Proof. unfold Py.max. destruct (gt_spec b a); lra. Qed.

Lemma max_lub a b c : a <= c -> b <= c -> Py.max a b <= c.
Proof. unfold Py.max. destruct (gt_spec b a); lra. Qed.

Lemma div_ok x y : ~ y == 0 -> py_div x y = Ok (x / y).
Proof. unfold py_div. destruct (eq_spec y 0); [contradiction | reflexivity]. Qed.

Lemma div_zero x y : y == 0 -> py_div x y = Raise ZeroDivisionError.
Proof. unfold py_div. destruct (eq_spec y 0); [reflexivity | contradiction]. Qed.

End PyFacts.

(** Unfolds the monad's combinators in the goal. *)
Ltac unfold_m :=
  unfold bind, ret, gets, modify, lift, raise, zoom in *; simpl in *.

(** ** MarketMaker: profit and loss *)

(** C1.  With a flat inventory, [get_total_pnl(m)] and [get_cash_pnl()] both
    return, leave the maker as it was, and return the same number, whatever
    the mid price [m]. *)
Theorem total_pnl_is_cash_pnl_when_flat (self : MarketMaker.t) (m : Q) :
  MarketMaker.inventory self == 0 ->
  exists total cash,
    MarketMaker.get_total_pnl m self = (Ok total, self) /\
    MarketMaker.get_cash_pnl self = (Ok cash, self) /\
    total == cash.
Proof.
  intros Hflat.
  unfold MarketMaker.get_total_pnl, MarketMaker.get_cash_pnl. unfold_m.
  do 2 eexists. repeat split; try reflexivity.
  rewrite Hflat. ring.
Qed.

Lemma total_pnl_is_cash_pnl_when_flat_witness :
  MarketMaker.inventory round_trip_maker == 0 /\
  exists total cash,
    MarketMaker.get_total_pnl (123 # 1) round_trip_maker = (Ok total, round_trip_maker) /\
    MarketMaker.get_cash_pnl round_trip_maker = (Ok cash, round_trip_maker) /\
    total == cash.
Proof.
  split; [reflexivity |].
  apply (total_pnl_is_cash_pnl_when_flat round_trip_maker (123 # 1)).
  reflexivity.
Defined.

(** The round trip of the spec leaves a cash PnL of exactly 1. *)
Example round_trip_cash_pnl :
  exists cash, fst (MarketMaker.get_cash_pnl round_trip_maker) = Ok cash /\ cash == 1.
Proof. eexists. split; [reflexivity | reflexivity]. Qed.

(** ** OrderBook: market orders *)

Section MarketOrders.

Variable self : OrderBook.t.
Variable quantity : Q.

Let mid := OrderBook.mid_price self.
Let half_spread := OrderBook.spread self.
Let depth := OrderBook.depth_per_level self.

(** Within the available depth the order executes at the touch and the
    book is left as it was. *)
Lemma execute_market_buy_within_depth :
  quantity <= depth ->
  OrderBook.execute_market_buy quantity self
  = (Ok (mid + half_spread, Py.min quantity depth), self).
Proof.
  intros Hq. unfold OrderBook.execute_market_buy, OrderBook.get_best_ask.
  unfold_m. fold depth.
  destruct (PyFacts.gt_spec quantity depth) as [H|H]; [lra | reflexivity].
Qed.

Lemma execute_market_sell_within_depth :
  quantity <= depth ->
  OrderBook.execute_market_sell quantity self
  = (Ok (mid - half_spread, Py.min quantity depth), self).
Proof.
  intros Hq. unfold OrderBook.execute_market_sell, OrderBook.get_best_bid.
  unfold_m. fold depth.
  destruct (PyFacts.gt_spec quantity depth) as [H|H]; [lra | reflexivity].
Qed.

(** Beyond a non-zero depth the order executes at the touch as it was
    before the call, and the mid moves by the linear impact. *)
Lemma execute_market_buy_beyond_depth :
  depth < quantity -> ~ depth == 0 ->
  OrderBook.execute_market_buy quantity self
  = (Ok (mid + half_spread, Py.min quantity depth),
     OrderBook.set_mid_price
       (mid + (quantity / depth - 1) * half_spread * (1 # 2)) self).
Proof.
  intros Hq Hd. unfold OrderBook.execute_market_buy, OrderBook.get_best_ask.
  unfold_m. fold depth.
  destruct (PyFacts.gt_spec quantity depth) as [H|H]; [| lra].
  rewrite (PyFacts.div_ok _ _ Hd). reflexivity.
Qed.

Lemma execute_market_sell_beyond_depth :
  depth < quantity -> ~ depth == 0 ->
  OrderBook.execute_market_sell quantity self
  = (Ok (mid - half_spread, Py.min quantity depth),
     OrderBook.set_mid_price
       (mid - (quantity / depth - 1) * half_spread * (1 # 2)) self).
Proof.
  intros Hq Hd. unfold OrderBook.execute_market_sell, OrderBook.get_best_bid.
  unfold_m. fold depth.
  destruct (PyFacts.gt_spec quantity depth) as [H|H]; [| lra].
  rewrite (PyFacts.div_ok _ _ Hd). reflexivity.
Qed.

(** Against a book without depth, any positive order raises before the
    book is touched. *)
Lemma execute_market_buy_no_depth :
  depth == 0 -> 0 < quantity ->
  OrderBook.execute_market_buy quantity self = (Raise ZeroDivisionError, self).
Proof.
  intros Hd Hq. unfold OrderBook.execute_market_buy, OrderBook.get_best_ask.
  unfold_m. fold depth.
  destruct (PyFacts.gt_spec quantity depth) as [H|H]; [| lra].
  rewrite (PyFacts.div_zero _ _ Hd). reflexivity.
Qed.

Lemma execute_market_sell_no_depth :
  depth == 0 -> 0 < quantity ->
  OrderBook.execute_market_sell quantity self = (Raise ZeroDivisionError, self).
Proof.
  intros Hd Hq. unfold OrderBook.execute_market_sell, OrderBook.get_best_bid.
  unfold_m. fold depth.
  destruct (PyFacts.gt_spec quantity depth) as [H|H]; [| lra].
  rewrite (PyFacts.div_zero _ _ Hd). reflexivity.
Qed.

End MarketOrders.

(** The large order of the spec: 200 against a depth of 100 executes 100 at
    the ask of 100.10 and moves the mid up, to 100.05. *)
Example execute_market_buy_200 :
  let r := OrderBook.execute_market_buy 200 (OrderBook.init 100 (1 # 10) 100 5) in
  fst r = Ok (1001 # 10, 100) /\
  OrderBook.mid_price (snd r) == 10005 # 100 /\
  100 < OrderBook.mid_price (snd r).
Proof. repeat split. Qed.

(** C4, as stated, fails: not every book and quantity make
    [execute_market_buy] return the ask with [min(q, depth_per_level)].  On
    a book with [depth_per_level = 0] an order of one unit divides by the
    depth and raises [ZeroDivisionError]. *)
Lemma execute_market_buy_not_total :
  ~ (forall (self : OrderBook.t) (quantity : Q),
       exists book',
         OrderBook.execute_market_buy quantity self
         = (Ok (OrderBook.mid_price self + OrderBook.spread self,
                Py.min quantity (OrderBook.depth_per_level self)), book')).
Proof.
  intros H.
  destruct (H (OrderBook.init 100 (1 # 10) 0 5) 1) as (book' & Hbook).
  rewrite execute_market_buy_no_depth in Hbook by reflexivity.
  discriminate.
Qed.

(** C4, amended.  Unless the depth is zero and the quantity exceeds it, a
    market buy returns the ask of the book as it was before the call, and a
    market sell the bid, with the quantity capped at the depth.  When the
    quantity exceeds the depth the mid is moved, up for a buy and down for a
    sell, by [(q / depth - 1) * spread * 0.5], and nothing else of the book
    changes; otherwise the book is left as it was. *)
Theorem execute_market_order_spec (self : OrderBook.t) (quantity : Q) :
  let mid := OrderBook.mid_price self in
  let half_spread := OrderBook.spread self in
  let depth := OrderBook.depth_per_level self in
  let impact := (quantity / depth - 1) * half_spread * (1 # 2) in
  ~ depth == 0 \/ quantity <= depth ->
  exists executed after_buy after_sell,
    OrderBook.execute_market_buy quantity self
    = (Ok (mid + half_spread, executed), after_buy) /\
    OrderBook.execute_market_sell quantity self
    = (Ok (mid - half_spread, executed), after_sell) /\
    (quantity <= depth ->
     executed = quantity /\ after_buy = self /\ after_sell = self) /\
    (depth < quantity ->
     executed = depth /\
     after_buy = OrderBook.mk (mid + impact) half_spread depth
                              (OrderBook.num_levels self) /\
     after_sell = OrderBook.mk (mid - impact) half_spread depth
                               (OrderBook.num_levels self)).
Proof.
  intros mid half_spread depth impact Hdepth.
  destruct (Qlt_le_dec depth quantity) as [Hq|Hq].
  - assert (Hd : ~ depth == 0) by (destruct Hdepth as [H|H]; [exact H | lra]).
    assert (Hmin : Py.min quantity depth = depth).
    { unfold Py.min. destruct (PyFacts.lt_spec depth quantity); [reflexivity | lra]. }
    exists depth, (OrderBook.set_mid_price (mid + impact) self),
                  (OrderBook.set_mid_price (mid - impact) self).
    rewrite (execute_market_buy_beyond_depth self quantity Hq Hd).
    rewrite (execute_market_sell_beyond_depth self quantity Hq Hd).
    fold depth. rewrite Hmin.
    split; [reflexivity |]. split; [reflexivity |].
    split; [intros H; lra |].
    intros _. repeat split.
  - assert (Hmin : Py.min quantity depth = quantity).
    { unfold Py.min. destruct (PyFacts.lt_spec depth quantity); [lra | reflexivity]. }
    exists quantity, self, self.
    rewrite (execute_market_buy_within_depth self quantity Hq).
    rewrite (execute_market_sell_within_depth self quantity Hq).
    fold depth. rewrite Hmin.
    split; [reflexivity |]. split; [reflexivity |].
    split; [intros _; repeat split | intros H; lra].
Qed.

Lemma execute_market_order_spec_witness :
  exists executed after_buy after_sell,
    OrderBook.execute_market_buy 200 default_book
    = (Ok (100 + (1 # 10), executed), after_buy) /\
    OrderBook.execute_market_sell 200 default_book
    = (Ok (100 - (1 # 10), executed), after_sell) /\
    (200 <= 100 ->
     executed = 200 /\ after_buy = default_book /\ after_sell = default_book) /\
    (100 < 200 ->
     executed = 100 /\
     after_buy = OrderBook.mk (100 + (200 / 100 - 1) * (1 # 10) * (1 # 2))
                              (1 # 10) 100 5 /\
     after_sell = OrderBook.mk (100 - (200 / 100 - 1) * (1 # 10) * (1 # 2))
                               (1 # 10) 100 5).
Proof.
  apply (execute_market_order_spec default_book 200).
  left. vm_compute. discriminate.
Defined.

(** ** RiskManager.apply *)

(** C5.  With the kill switch enabled, a drawdown limit set and the cash PnL
    at or below minus its absolute value, [apply] returns the prices it was
    given, both sizes zero and [is_active = False]; this holds for every
    throttle configuration of the manager, which is left as it was. *)
Theorem apply_kill_switch
    (self : RiskManager.t) (limit : Q)
    (bid_price bid_size ask_price ask_size inventory max_inventory cash_pnl : Q) :
  RiskManager.enable_kill_switch self = true ->
  RiskManager.drawdown_limit self = Some limit ->
  cash_pnl <= - Qabs limit ->
  RiskManager.apply bid_price bid_size ask_price ask_size
                    inventory max_inventory cash_pnl self
  = (Ok (RiskManager.mkq bid_price 0 ask_price 0 false), self).
Proof.
  intros Hk Hl Hc. unfold RiskManager.apply. unfold_m.
  rewrite Hk, Hl. simpl.
  destruct (PyFacts.le_spec cash_pnl (- Py.abs limit)) as [_|H];
    [reflexivity | contradiction].
Qed.

Lemma apply_kill_switch_witness :
  RiskManager.apply (99 # 1) 10 (101 # 1) 10 50 100 (- (51 # 1))
                    (RiskManager.mk true (Some 50) true (3 # 10))
  = (Ok (RiskManager.mkq (99 # 1) 0 (101 # 1) 0 false),
     RiskManager.mk true (Some 50) true (3 # 10)).
Proof.
  apply (apply_kill_switch (RiskManager.mk true (Some 50) true (3 # 10)) 50);
    [reflexivity | reflexivity | vm_compute; discriminate].
Defined.

(** The division in the throttle is guarded: [apply] never raises. *)
Lemma apply_returns
    (self : RiskManager.t)
    (bid_price bid_size ask_price ask_size inventory max_inventory cash_pnl : Q) :
  exists q,
    RiskManager.apply bid_price bid_size ask_price ask_size
                      inventory max_inventory cash_pnl self = (Ok q, self) /\
    RiskManager.q_bid_price q = bid_price /\
    RiskManager.q_ask_price q = ask_price /\
    ((RiskManager.q_bid_size q = 0 /\ RiskManager.q_ask_size q = 0) \/
     (RiskManager.enable_size_throttle self && Py.gt max_inventory 0 = false /\
      RiskManager.q_bid_size q = bid_size /\ RiskManager.q_ask_size q = ask_size) \/
     (0 < max_inventory /\
      exists scale,
        scale = Py.max (RiskManager.min_throttle self)
                       (1 - Py.min 1 (Qabs inventory / max_inventory)) /\
        RiskManager.q_bid_size q = bid_size * scale /\
        RiskManager.q_ask_size q = ask_size * scale)).
Proof.
  unfold RiskManager.apply. unfold_m.
  destruct (RiskManager.enable_kill_switch self &&
            match RiskManager.drawdown_limit self with
            | Some d => Py.le cash_pnl (- Py.abs d)
            | None => false
            end).
  - eexists. repeat split; auto.
  - destruct (RiskManager.enable_size_throttle self) eqn:Et; simpl.
    + destruct (PyFacts.gt_spec max_inventory 0) as [Hm|Hm].
      * rewrite PyFacts.div_ok by lra. simpl.
        eexists. repeat split. right. right. split; [exact Hm|].
        eexists. repeat split.
      * eexists. repeat split. right. left. auto.
    + eexists. repeat split. right. left. auto.
Qed.

(** C8.  Whatever the configuration and the inputs, [apply] returns (it does
    not raise), leaves the manager as it was, and the bid and ask prices of
    its result are the ones passed in. *)
Theorem apply_keeps_prices
    (self : RiskManager.t)
    (bid_price bid_size ask_price ask_size inventory max_inventory cash_pnl : Q) :
  exists q,
    RiskManager.apply bid_price bid_size ask_price ask_size
                      inventory max_inventory cash_pnl self = (Ok q, self) /\
    RiskManager.q_bid_price q = bid_price /\
    RiskManager.q_ask_price q = ask_price.
Proof.
  destruct (apply_returns self bid_price bid_size ask_price ask_size
                          inventory max_inventory cash_pnl)
    as (q & Hq & Hb & Ha & _).
  exists q. auto.
Qed.

(** ** MarketMaker.get_quotes *)

Lemma set_risk_manager_same (self : MarketMaker.t) (rm : RiskManager.t) :
  MarketMaker.risk_manager self = Some rm ->
  MarketMaker.set_risk_manager (Some rm) self = self.
Proof.
  destruct self; simpl; intros ->. reflexivity.
Qed.

(** [get_quotes] in full: it returns, changes neither object, and its
    result is the raw quote, passed through [RiskManager.apply] when a
    manager is attached. *)
Lemma get_quotes_unfold (self : MarketMaker.t) (book : OrderBook.t) :
  let mid := OrderBook.mid_price book in
  match MarketMaker.risk_manager self with
  | None =>
      MarketMaker.get_quotes (self, book)
      = (Ok (raw_bid_price self mid, raw_bid_size self,
             raw_ask_price self mid, raw_ask_size self), (self, book))
  | Some rm =>
      exists q,
        RiskManager.apply (raw_bid_price self mid) (raw_bid_size self)
                          (raw_ask_price self mid) (raw_ask_size self)
                          (MarketMaker.inventory self)
                          (MarketMaker.max_inventory self)
                          (MarketMaker.total_sell_value self
                           - MarketMaker.total_buy_value self) rm
        = (Ok q, rm) /\
        MarketMaker.get_quotes (self, book)
        = (Ok (RiskManager.q_bid_price q, RiskManager.q_bid_size q,
               RiskManager.q_ask_price q, RiskManager.q_ask_size q),
           (self, book))
  end.
Proof.
  intros mid.
  destruct (MarketMaker.risk_manager self) as [rm|] eqn:Hrm.
  - destruct (apply_returns rm (raw_bid_price self mid) (raw_bid_size self)
                (raw_ask_price self mid) (raw_ask_size self)
                (MarketMaker.inventory self) (MarketMaker.max_inventory self)
                (MarketMaker.total_sell_value self
                 - MarketMaker.total_buy_value self))
      as (q & Hq & _).
    exists q. split; [exact Hq |].
    unfold MarketMaker.get_quotes, MarketMaker.on_self, MarketMaker.on_order_book,
      MarketMaker.on_risk_manager, MarketMaker.get_cash_pnl,
      OrderBook.get_mid_price.
    unfold bind, ret, gets, zoom; cbv beta iota zeta delta [fst snd].
    rewrite Hrm.
    unfold raw_bid_price, raw_bid_size, raw_ask_price, raw_ask_size, mid in Hq.
    rewrite Hq. cbv beta iota zeta delta [fst snd].
    rewrite (set_risk_manager_same self rm Hrm). reflexivity.
  - unfold MarketMaker.get_quotes, MarketMaker.on_self, MarketMaker.on_order_book,
      OrderBook.get_mid_price.
    unfold bind, ret, gets, zoom; cbv beta iota zeta delta [fst snd].
    rewrite Hrm. reflexivity.
Qed.

(** C6.  Without a risk manager, [get_quotes] returns the mid shifted by the
    quote spread and the inventory skew on each side, and on each side the
    quote size when a full fill keeps the inventory within the limit, zero
    otherwise. *)
Theorem get_quotes_without_risk_manager
    (self : MarketMaker.t) (book : OrderBook.t) :
  MarketMaker.risk_manager self = None ->
  let m := OrderBook.mid_price book in
  let inv := MarketMaker.inventory self in
  let size := MarketMaker.quote_size self in
  let skew := inv * MarketMaker.inventory_skew_factor self in
  exists bid_price bid_size ask_price ask_size,
    fst (MarketMaker.get_quotes (self, book))
    = Ok (bid_price, bid_size, ask_price, ask_size) /\
    bid_price = m - MarketMaker.quote_spread self - skew /\
    ask_price = m + MarketMaker.quote_spread self + skew /\
    (Qabs (inv + size) <= MarketMaker.max_inventory self -> bid_size = size) /\
    (~ Qabs (inv + size) <= MarketMaker.max_inventory self -> bid_size = 0) /\
    (Qabs (inv - size) <= MarketMaker.max_inventory self -> ask_size = size) /\
    (~ Qabs (inv - size) <= MarketMaker.max_inventory self -> ask_size = 0).
Proof.
  intros Hrm m inv size skew.
  pose proof (get_quotes_unfold self book) as H. simpl in H. rewrite Hrm in H.
  rewrite H. simpl.
  exists (raw_bid_price self m), (raw_bid_size self),
         (raw_ask_price self m), (raw_ask_size self).
  unfold raw_bid_price, raw_ask_price, raw_bid_size, raw_ask_size.
  fold inv size.
  repeat split;
    try (destruct (PyFacts.le_spec (Py.abs (inv + size))
                                   (MarketMaker.max_inventory self));
         unfold Py.abs in *; intros; tauto);
    try (destruct (PyFacts.le_spec (Py.abs (inv - size))
                                   (MarketMaker.max_inventory self));
         unfold Py.abs in *; intros; tauto).
Qed.

Lemma get_quotes_without_risk_manager_witness :
  exists bid_price bid_size ask_price ask_size,
    fst (MarketMaker.get_quotes (long_maker, default_book))
    = Ok (bid_price, bid_size, ask_price, ask_size) /\
    bid_price = 100 - (5 # 100) - 95 * (1 # 100) /\
    ask_price = 100 + (5 # 100) + 95 * (1 # 100) /\
    (Qabs (95 + 10) <= 100 -> bid_size = 10) /\
    (~ Qabs (95 + 10) <= 100 -> bid_size = 0) /\
    (Qabs (95 - 10) <= 100 -> ask_size = 10) /\
    (~ Qabs (95 - 10) <= 100 -> ask_size = 0).
Proof.
  apply (get_quotes_without_risk_manager long_maker default_book).
  reflexivity.
Defined.

(** The suppression example evaluated: the bid is withdrawn, the ask stays. *)
Example get_quotes_near_limit :
  exists bid_price ask_price,
    fst (MarketMaker.get_quotes (long_maker, default_book))
    = Ok (bid_price, 0, ask_price, 10).
Proof. do 2 eexists. reflexivity. Qed.

(** ** MarketMaker: average prices *)

(** C9.  [get_average_buy_price] never raises and leaves the maker as it
    was; it returns [None] exactly when [total_bought == 0], and otherwise
    [total_buy_value / total_bought].  [get_average_sell_price] does the
    same with [total_sold] and [total_sell_value]. *)
Theorem average_price_guarded (self : MarketMaker.t) :
  let bought := MarketMaker.total_bought self in
  let sold := MarketMaker.total_sold self in
  (MarketMaker.get_average_buy_price self = (Ok None, self) <-> bought == 0) /\
  (~ bought == 0 ->
   MarketMaker.get_average_buy_price self
   = (Ok (Some (MarketMaker.total_buy_value self / bought)), self)) /\
  (MarketMaker.get_average_sell_price self = (Ok None, self) <-> sold == 0) /\
  (~ sold == 0 ->
   MarketMaker.get_average_sell_price self
   = (Ok (Some (MarketMaker.total_sell_value self / sold)), self)).
Proof.
  intros bought sold.
  unfold MarketMaker.get_average_buy_price, MarketMaker.get_average_sell_price.
  unfold bind, ret, gets, lift; simpl. fold bought sold.
  repeat split.
  - destruct (PyFacts.eq_spec bought 0) as [H|H]; [auto |].
    rewrite (PyFacts.div_ok _ _ H). discriminate.
  - intros H. destruct (PyFacts.eq_spec bought 0); [reflexivity | contradiction].
  - intros H. destruct (PyFacts.eq_spec bought 0); [contradiction |].
    rewrite (PyFacts.div_ok _ _ H). reflexivity.
  - destruct (PyFacts.eq_spec sold 0) as [H|H]; [auto |].
    rewrite (PyFacts.div_ok _ _ H). discriminate.
  - intros H. destruct (PyFacts.eq_spec sold 0); [reflexivity | contradiction].
  - intros H. destruct (PyFacts.eq_spec sold 0); [contradiction |].
    rewrite (PyFacts.div_ok _ _ H). reflexivity.
Qed.

Lemma average_price_guarded_witness :
  (exists avg,
     MarketMaker.get_average_buy_price traded_maker = (Ok (Some avg), traded_maker) /\
     avg == 9995 # 100) /\
  MarketMaker.get_average_sell_price round_trip_maker
  = (Ok (Some (MarketMaker.total_sell_value round_trip_maker
               / MarketMaker.total_sold round_trip_maker)), round_trip_maker) /\
  MarketMaker.get_average_buy_price long_maker = (Ok None, long_maker).
Proof.
  split; [| split].
  - eexists. split.
    + apply (average_price_guarded traded_maker). vm_compute. discriminate.
    + reflexivity.
  - apply (average_price_guarded round_trip_maker). vm_compute. discriminate.
  - apply (average_price_guarded long_maker). reflexivity.
Defined.

(** ** MarketMaker.get_quotes changes nothing *)

Lemma get_quotes_returns (self : MarketMaker.t) (book : OrderBook.t) :
  exists quotes, MarketMaker.get_quotes (self, book) = (Ok quotes, (self, book)).
Proof.
  pose proof (get_quotes_unfold self book) as H. simpl in H.
  destruct (MarketMaker.risk_manager self) as [rm|].
  - destruct H as (q & _ & H). eexists. exact H.
  - eexists. exact H.
Qed.

Lemma call_n_reader {S A} (m : M S A) (s : S) (a : A) (n : nat) :
  m s = (Ok a, s) -> call_n n m s = (Ok (repeat a n), s).
Proof.
  intros Hm. induction n as [|n IH]; simpl.
  - reflexivity.
  - unfold bind at 1. rewrite Hm.
    unfold bind at 1. rewrite IH. reflexivity.
Qed.

(** C10.  [get_quotes] returns (it does not raise) and leaves the maker,
    with its attached risk manager if any, and the order book exactly as
    they were; hence any number of consecutive calls return the same quotes
    and still leave both objects as they were. *)
Theorem get_quotes_is_read_only (self : MarketMaker.t) (book : OrderBook.t) :
  exists quotes,
    MarketMaker.get_quotes (self, book) = (Ok quotes, (self, book)) /\
    forall n,
      call_n n MarketMaker.get_quotes (self, book)
      = (Ok (repeat quotes n), (self, book)).
Proof.
  destruct (get_quotes_returns self book) as (quotes & H).
  exists quotes. split; [exact H |].
  intros n. apply call_n_reader. exact H.
Qed.

(** Three calls in a row on the managed maker: the same throttled quote
    each time, and the maker and the book as before. *)
Example get_quotes_three_times :
  exists q,
    call_n 3 MarketMaker.get_quotes (managed_maker, default_book)
    = (Ok [q; q; q], (managed_maker, default_book)) /\
    snd (fst q) == 10055 # 100 /\ snd q == 5.
Proof.
  eexists. split; [vm_compute; reflexivity |]. split; reflexivity.
Qed.

(** ** PnLTracker.get_adverse_selection_cost *)

Lemma for_each_map {S A X Y} (f : X -> Y) (xs : list X)
      (body : A -> Y -> M S A) (acc : A) (s : S) :
  for_each (map f xs) body acc s = for_each xs (fun a x => body a (f x)) acc s.
Proof.
  revert acc s. induction xs as [|x xs IH]; intros acc s; simpl.
  - reflexivity.
  - unfold bind. destruct (body acc (f x) s) as [[a|e] s']; [apply IH | reflexivity].
Qed.

Lemma get_adverse_selection_cost_unfold (self : PnLTracker.t) :
  PnLTracker.get_adverse_selection_cost self
  = let ts := PnLTracker.trades self in
    if (length ts <? 2)%nat then (Ok 0, self)
    else
      match for_each (range (length ts - 1)) (adverse_loop_body ts) 0 self with
      | (Ok acc, self') => (Ok (- acc), self')
      | (Raise e, self') => (Raise e, self')
      end.
Proof.
  unfold PnLTracker.get_adverse_selection_cost, adverse_loop_body.
  unfold bind at 1. unfold gets at 1. cbv zeta.
  destruct (length (PnLTracker.trades self) <? 2)%nat; reflexivity.
Qed.

(** One turn of the loop at index 0 adds the spec's cost of the first pair. *)
Lemma adverse_loop_body_head (t t_next : PnLTracker.trade)
      (rest : list PnLTracker.trade) (acc : Q) (self : PnLTracker.t) :
  adverse_loop_body (t :: t_next :: rest) acc 0%nat self
  = (Ok (if (String.eqb (PnLTracker.side t) "buy"
             && Py.lt (PnLTracker.mid_price t_next - PnLTracker.mid_price t) 0)
            || (String.eqb (PnLTracker.side t) "sell"
                && Py.gt (PnLTracker.mid_price t_next - PnLTracker.mid_price t) 0)
         then acc + adverse_pair_cost t t_next else acc), self).
Proof.
  unfold adverse_loop_body, adverse_pair_cost, py_index, bind, lift, ret, Py.abs.
  simpl.
  destruct (String.eqb (PnLTracker.side t) "buy"
            && Py.lt (PnLTracker.mid_price t_next - PnLTracker.mid_price t) 0);
    simpl; [reflexivity |].
  destruct (String.eqb (PnLTracker.side t) "sell"
            && Py.gt (PnLTracker.mid_price t_next - PnLTracker.mid_price t) 0);
    reflexivity.
Qed.

(** The loop never indexes out of range, leaves the tracker alone, and its
    accumulator ends at the spec's sum over consecutive pairs. *)
Lemma adverse_loop_sum (ts : list PnLTracker.trade) :
  forall (t : PnLTracker.trade) (acc : Q) (self : PnLTracker.t),
  exists r,
    for_each (range (length ts)) (adverse_loop_body (t :: ts)) acc self
    = (Ok r, self) /\
    r == acc + adverse_pairs_sum (t :: ts).
Proof.
  unfold range.
  induction ts as [|t_next rest IH]; intros t acc self.
  - exists acc. split; [reflexivity | simpl; ring].
  - simpl length. rewrite <- cons_seq, <- seq_shift.
    cbn [for_each]. unfold bind at 1.
    rewrite adverse_loop_body_head.
    rewrite for_each_map.
    change (fun a x => adverse_loop_body (t :: t_next :: rest) a (S x))
      with (adverse_loop_body (t_next :: rest)).
    match goal with
    | |- context [for_each _ _ ?a self] =>
        destruct (IH t_next a self) as (r & Hr & Hsum)
    end.
    exists r. split; [exact Hr |].
    rewrite Hsum.
    change (adverse_pairs_sum (t :: t_next :: rest))
      with (adverse_pair_cost t t_next + adverse_pairs_sum (t_next :: rest)).
    unfold adverse_pair_cost at 2.
    destruct ((String.eqb (PnLTracker.side t) "buy"
               && Py.lt (PnLTracker.mid_price t_next - PnLTracker.mid_price t) 0)
              || (String.eqb (PnLTracker.side t) "sell"
                  && Py.gt (PnLTracker.mid_price t_next - PnLTracker.mid_price t) 0))
      eqn:E.
    + unfold adverse_pair_cost. rewrite E. ring.
    + ring.
Qed.

Lemma adverse_pair_cost_nonneg (t t_next : PnLTracker.trade) :
  0 <= PnLTracker.quantity t -> 0 <= adverse_pair_cost t t_next.
Proof.
  intros Hq. unfold adverse_pair_cost. cbv zeta.
  destruct (_ || _); [| lra].
  apply Qmult_le_0_compat; [apply Qabs_nonneg | exact Hq].
Qed.

Lemma adverse_pairs_sum_nonneg (ts : list PnLTracker.trade) :
  Forall (fun t => 0 <= PnLTracker.quantity t) ts -> 0 <= adverse_pairs_sum ts.
Proof.
  induction 1 as [|t rest Ht Hrest IH]; [simpl; lra |].
  destruct rest as [|t_next rest']; [simpl; lra |].
  change (adverse_pairs_sum (t :: t_next :: rest'))
    with (adverse_pair_cost t t_next + adverse_pairs_sum (t_next :: rest')).
  pose proof (adverse_pair_cost_nonneg t t_next Ht). lra.
Qed.

(** C7.  [get_adverse_selection_cost] returns (no index is out of range)
    and leaves the ledger as it was.  With fewer than two trades it returns
    0; otherwise it returns minus the sum, over the consecutive pairs of
    trades in recorded order, of [|move| * t.quantity] for the pairs where
    the first trade is a buy and the mid moved down or is a sell and the mid
    moved up.  The result is at most 0 when no recorded quantity is
    negative. *)
Theorem adverse_selection_cost_spec (self : PnLTracker.t) :
  let ts := PnLTracker.trades self in
  ((length ts < 2)%nat ->
   PnLTracker.get_adverse_selection_cost self = (Ok 0, self)) /\
  ((2 <= length ts)%nat ->
   exists r,
     PnLTracker.get_adverse_selection_cost self = (Ok r, self) /\
     r == - adverse_pairs_sum ts) /\
  (Forall (fun t => 0 <= PnLTracker.quantity t) ts ->
   exists r,
     PnLTracker.get_adverse_selection_cost self = (Ok r, self) /\ r <= 0).
Proof.
  intros ts.
  assert (Hlong : (2 <= length ts)%nat ->
                  exists r,
                    PnLTracker.get_adverse_selection_cost self = (Ok r, self) /\
                    r == - adverse_pairs_sum ts).
  { intros Hlen. rewrite get_adverse_selection_cost_unfold. cbv zeta. fold ts.
    destruct (Nat.ltb_spec (length ts) 2) as [Hlt|_]; [lia |].
    destruct ts as [|t rest]; [simpl in Hlen; lia |].
    replace (length (t :: rest) - 1)%nat with (length rest) by (simpl; lia).
    destruct (adverse_loop_sum rest t 0 self) as (r & Hr & Hsum).
    rewrite Hr. exists (- r). split; [reflexivity |].
    rewrite Hsum. ring. }
  assert (Hshort : (length ts < 2)%nat ->
                   PnLTracker.get_adverse_selection_cost self = (Ok 0, self)).
  { intros Hlen. rewrite get_adverse_selection_cost_unfold. cbv zeta. fold ts.
    destruct (Nat.ltb_spec (length ts) 2) as [_|Hge]; [reflexivity | lia]. }
  split; [exact Hshort |]. split; [exact Hlong |].
  intros Hq.
  destruct (Nat.lt_ge_cases (length ts) 2) as [Hlen|Hlen].
  - exists 0. split; [apply Hshort; exact Hlen | lra].
  - destruct (Hlong Hlen) as (r & Hr & Hsum).
    exists r. split; [exact Hr |].
    pose proof (adverse_pairs_sum_nonneg _ Hq). lra.
Qed.

Lemma adverse_selection_cost_spec_witness :
  (exists r,
     PnLTracker.get_adverse_selection_cost example_ledger = (Ok r, example_ledger) /\
     r == - adverse_pairs_sum (PnLTracker.trades example_ledger)) /\
  (exists r,
     PnLTracker.get_adverse_selection_cost example_ledger = (Ok r, example_ledger) /\
     r <= 0) /\
  PnLTracker.get_adverse_selection_cost PnLTracker.init = (Ok 0, PnLTracker.init).
Proof.
  split; [| split].
  - apply (adverse_selection_cost_spec example_ledger). simpl. lia.
  - apply (adverse_selection_cost_spec example_ledger).
    repeat constructor; vm_compute; discriminate.
  - apply (adverse_selection_cost_spec PnLTracker.init). simpl. lia.
Defined.

(** The example of the spec evaluated: the adverse selection is -10. *)
Example adverse_selection_example :
  exists r,
    PnLTracker.get_adverse_selection_cost example_ledger = (Ok r, example_ledger) /\
    r == - (10 # 1).
Proof. eexists. split; [vm_compute; reflexivity | reflexivity]. Qed.

(** ** MarketSimulator.step and the position limit *)

(** Exposes the body of [step] down to the calls that are reasoned about as
    a whole: [get_quotes] and the draws. *)
Ltac unfold_step :=
  unfold MarketSimulator.step, MarketSimulator.simulate_order_flow,
    MarketSimulator.simulate_price_move, MarketSimulator.on_maker_and_book,
    MarketSimulator.on_market_maker, MarketSimulator.on_order_book,
    MarketSimulator.on_pnl_tracker, MarketSimulator.on_self,
    MarketSimulator.on_np, MarketSimulator.random, MarketSimulator.normal,
    OrderBook.get_mid_price, OrderBook.update_mid_price,
    MarketMaker.get_inventory, MarketMaker.get_cash_pnl,
    MarketMaker.get_total_pnl,
    PnLTracker.record_trade, PnLTracker.record_inventory_snapshot;
  unfold bind, ret, gets, modify, zoom.

Ltac eval_step :=
  unfold MarketMaker.execute_ask_fill, MarketMaker.execute_bid_fill,
    bind, ret, gets, modify;
  cbn -[MarketMaker.get_quotes].

(** Runs the exposed body: each draw is named, each test is split. *)
Ltac run_step :=
  repeat (eval_step;
          match goal with
          | |- context [Py.lt ?x ?y] => destruct (Py.lt x y)
          | |- context [Py.gt ?x 0] =>
              destruct (PyFacts.gt_spec x 0)
          | |- context [np_random ?g] => destruct (np_random g) as [? ?]
          | |- context [np_normal ?l ?s ?g] =>
              destruct (np_normal l s g) as [[?|?] ?]
          end);
  eval_step.

Section StepFacts.

Context {NP : NumpyRandom}.

(** What one step does to the market maker: nothing, or the fill of the
    quoted ask, or the fill of the quoted bid, the size filled being
    positive. *)
Lemma step_maker_cases (volatility arrival_rate dt : Q)
      (g : rng) (sim : MarketSimulator.t) (bid_price bid_size ask_price ask_size : Q) :
  MarketMaker.get_quotes (MarketSimulator.market_maker sim, MarketSimulator.order_book sim)
  = (Ok (bid_price, bid_size, ask_price, ask_size),
     (MarketSimulator.market_maker sim, MarketSimulator.order_book sim)) ->
  let maker := MarketSimulator.market_maker sim in
  let maker' :=
    MarketSimulator.market_maker
      (snd (snd (MarketSimulator.step volatility arrival_rate dt (g, sim)))) in
  maker' = maker \/
  (0 < ask_size /\
   maker' = snd (MarketMaker.execute_ask_fill ask_price ask_size maker)) \/
  (0 < bid_size /\
   maker' = snd (MarketMaker.execute_bid_fill bid_price bid_size maker)).
Proof.
  intros Hq maker maker'. subst maker' maker.
  unfold_step. eval_step. rewrite Hq.
  run_step; auto.
Qed.

(** A fill changes the inventory by the size filled and nothing of the
    configuration. *)
Lemma execute_ask_fill_inventory (price quantity : Q) (maker : MarketMaker.t) :
  let maker' := snd (MarketMaker.execute_ask_fill price quantity maker) in
  MarketMaker.inventory maker' = MarketMaker.inventory maker - quantity /\
  MarketMaker.quote_size maker' = MarketMaker.quote_size maker /\
  MarketMaker.max_inventory maker' = MarketMaker.max_inventory maker /\
  MarketMaker.risk_manager maker' = MarketMaker.risk_manager maker.
Proof. repeat split. Qed.

Lemma execute_bid_fill_inventory (price quantity : Q) (maker : MarketMaker.t) :
  let maker' := snd (MarketMaker.execute_bid_fill price quantity maker) in
  MarketMaker.inventory maker' = MarketMaker.inventory maker + quantity /\
  MarketMaker.quote_size maker' = MarketMaker.quote_size maker /\
  MarketMaker.max_inventory maker' = MarketMaker.max_inventory maker /\
  MarketMaker.risk_manager maker' = MarketMaker.risk_manager maker.
Proof. repeat split. Qed.

(** The raw sizes: a side is quoted only when its full fill stays within the
    limit. *)
Lemma raw_bid_size_cases (maker : MarketMaker.t) :
  (raw_bid_size maker = MarketMaker.quote_size maker /\
   Qabs (MarketMaker.inventory maker + MarketMaker.quote_size maker)
   <= MarketMaker.max_inventory maker) \/
  raw_bid_size maker = 0.
Proof.
  unfold raw_bid_size, Py.abs.
  destruct (PyFacts.le_spec
              (Qabs (MarketMaker.inventory maker + MarketMaker.quote_size maker))
              (MarketMaker.max_inventory maker)); auto.
Qed.

Lemma raw_ask_size_cases (maker : MarketMaker.t) :
  (raw_ask_size maker = MarketMaker.quote_size maker /\
   Qabs (MarketMaker.inventory maker - MarketMaker.quote_size maker)
   <= MarketMaker.max_inventory maker) \/
  raw_ask_size maker = 0.
Proof.
  unfold raw_ask_size, Py.abs.
  destruct (PyFacts.le_spec
              (Qabs (MarketMaker.inventory maker - MarketMaker.quote_size maker))
              (MarketMaker.max_inventory maker)); auto.
Qed.

(** The throttle's scale lies between the floor and 1. *)
Lemma throttle_scale_bounds (floor inventory max_inventory : Q) :
  0 < max_inventory -> floor <= 1 ->
  let scale := Py.max floor (1 - Py.min 1 (Qabs inventory / max_inventory)) in
  floor <= scale <= 1.
Proof.
  intros Hmax Hfloor scale. subst scale. split.
  - apply PyFacts.max_ge_l.
  - apply PyFacts.max_lub; [exact Hfloor |].
    assert (0 <= Qabs inventory / max_inventory).
    { apply Qle_shift_div_l; [exact Hmax |].
      pose proof (Qabs_nonneg inventory). lra. }
    assert (0 <= Py.min 1 (Qabs inventory / max_inventory)).
    { apply PyFacts.min_glb; lra. }
    lra.
Qed.

(** A size scaled by a factor in (0, 1] moves the inventory to a point
    between where it is and where the full size would take it. *)
Lemma scaled_fill_within (inv size scale limit : Q) :
  0 <= size -> 0 < scale -> scale <= 1 ->
  Qabs inv <= limit ->
  (Qabs (inv + size) <= limit -> Qabs (inv + size * scale) <= limit) /\
  (Qabs (inv - size) <= limit -> Qabs (inv - size * scale) <= limit).
Proof.
  intros Hsize Hpos Hone Hinv.
  apply Qabs_Qle_condition in Hinv.
  assert (0 <= size * scale) by (apply Qmult_le_0_compat; lra).
  assert (size * scale <= size) by nra.
  split; intros H1; apply Qabs_Qle_condition in H1;
    apply Qabs_Qle_condition; lra.
Qed.

(** The quotes pre-suppress any fill that would breach the limit: a side
    with a positive size, once filled, keeps the inventory within it. *)
Lemma quotes_respect_limit (maker : MarketMaker.t) (book : OrderBook.t)
      (bid_price bid_size ask_price ask_size : Q) :
  limit_config maker -> within_limit maker ->
  MarketMaker.get_quotes (maker, book)
  = (Ok (bid_price, bid_size, ask_price, ask_size), (maker, book)) ->
  (0 < bid_size ->
   Qabs (MarketMaker.inventory maker + bid_size) <= MarketMaker.max_inventory maker) /\
  (0 < ask_size ->
   Qabs (MarketMaker.inventory maker - ask_size) <= MarketMaker.max_inventory maker).
Proof.
  intros (Hsize & Hmax & Hrm) Hin Hq.
  unfold within_limit in Hin.
  pose proof (get_quotes_unfold maker book) as Hu. cbv zeta in Hu.
  pose proof (raw_bid_size_cases maker) as Hb.
  pose proof (raw_ask_size_cases maker) as Ha.
  destruct (MarketMaker.risk_manager maker) as [rm|].
  - destruct Hu as (q & Happly & Hu). rewrite Hu in Hq.
    injection Hq as <- <- <- <-.
    destruct (apply_returns rm
                (raw_bid_price maker (OrderBook.mid_price book)) (raw_bid_size maker)
                (raw_ask_price maker (OrderBook.mid_price book)) (raw_ask_size maker)
                (MarketMaker.inventory maker) (MarketMaker.max_inventory maker)
                (MarketMaker.total_sell_value maker - MarketMaker.total_buy_value maker))
      as (q' & Happly' & _ & _ & Hcases).
    rewrite Happly in Happly'. injection Happly' as <-.
    destruct Hrm as (Hfloor & Hone).
    destruct Hcases as [(Hb0 & Ha0) | [(_ & Hb1 & Ha1) | (_ & scale & Hscale & Hb2 & Ha2)]].
    + rewrite Hb0, Ha0. split; intros H; inversion H.
    + rewrite Hb1, Ha1. split; intros H.
      * destruct Hb as [(E & Hok) | E]; rewrite E in H |- *; [exact Hok | lra].
      * destruct Ha as [(E & Hok) | E]; rewrite E in H |- *; [exact Hok | lra].
    + pose proof (throttle_scale_bounds (RiskManager.min_throttle rm)
                    (MarketMaker.inventory maker) _ Hmax Hone) as Hsc.
      cbv zeta in Hsc. rewrite <- Hscale in Hsc.
      assert (Hpos : 0 < scale) by lra.
      destruct (scaled_fill_within (MarketMaker.inventory maker)
                  (MarketMaker.quote_size maker) scale
                  (MarketMaker.max_inventory maker) Hsize Hpos (proj2 Hsc) Hin)
        as (Hbid & Hask).
      rewrite Hb2, Ha2. split; intros H.
      * destruct Hb as [(E & Hok) | E]; rewrite E in H |- *;
          [exact (Hbid Hok) | lra].
      * destruct Ha as [(E & Hok) | E]; rewrite E in H |- *;
          [exact (Hask Hok) | lra].
  - rewrite Hu in Hq. injection Hq as <- <- <- <-.
    split; intros H.
    + destruct Hb as [(E & Hok) | E]; rewrite E in H |- *; [exact Hok | lra].
    + destruct Ha as [(E & Hok) | E]; rewrite E in H |- *; [exact Hok | lra].
Qed.

(** One step keeps the configuration and the position limit. *)
Lemma step_keeps_limit (volatility arrival_rate dt : Q)
      (g : rng) (sim : MarketSimulator.t) :
  limit_config (MarketSimulator.market_maker sim) ->
  within_limit (MarketSimulator.market_maker sim) ->
  let maker' :=
    MarketSimulator.market_maker
      (snd (snd (MarketSimulator.step volatility arrival_rate dt (g, sim)))) in
  limit_config maker' /\ within_limit maker'.
Proof.
  intros Hcfg Hin maker'.
  destruct (get_quotes_returns (MarketSimulator.market_maker sim)
                               (MarketSimulator.order_book sim))
    as ([[[bid_price bid_size] ask_price] ask_size] & Hq).
  destruct (quotes_respect_limit _ _ _ _ _ _ Hcfg Hin Hq) as (Hbid & Hask).
  destruct (step_maker_cases volatility arrival_rate dt g sim _ _ _ _ Hq)
    as [E | [(Hpos & E) | (Hpos & E)]]; fold maker' in E; rewrite E.
  - auto.
  - split; [exact Hcfg | exact (Hask Hpos)].
  - split; [exact Hcfg | exact (Hbid Hpos)].
Qed.

(** A loop keeps what each turn of its body keeps, whether or not a turn
    raises. *)
Lemma for_each_keeps {S A X} (I : S -> Prop) (body : A -> X -> M S A) :
  (forall a x s, I s -> I (snd (body a x s))) ->
  forall xs acc s, I s -> I (snd (for_each xs body acc s)).
Proof.
  intros Hbody xs. induction xs as [|x xs IH]; intros acc s Hs; simpl.
  - exact Hs.
  - unfold bind. pose proof (Hbody acc x s Hs) as Hx.
    destruct (body acc x s) as [[a|e] s']; simpl in Hx; [apply IH |]; exact Hx.
Qed.

(** [run] keeps the configuration and the position limit, for any number of
    steps. *)
Lemma run_keeps_limit (num_steps : nat) (volatility arrival_rate dt : Q)
      (g : rng) (sim : MarketSimulator.t) :
  limit_config (MarketSimulator.market_maker sim) ->
  within_limit (MarketSimulator.market_maker sim) ->
  let maker' :=
    MarketSimulator.market_maker
      (snd (snd (MarketSimulator.run num_steps volatility arrival_rate dt (g, sim)))) in
  limit_config maker' /\ within_limit maker'.
Proof.
  intros Hcfg Hin.
  pose (I := fun w : MarketSimulator.world =>
               limit_config (MarketSimulator.market_maker (snd w)) /\
               within_limit (MarketSimulator.market_maker (snd w))).
  assert (Hloop : I (snd (for_each (range num_steps)
                            (fun (_ : unit) (_ : nat) =>
                               MarketSimulator.step volatility arrival_rate dt ;;
                               ret tt)
                            tt (g, sim)))).
  { apply for_each_keeps; [| split; assumption].
    intros _ _ [g0 sim0] (H1 & H2). unfold bind, ret.
    pose proof (step_keeps_limit volatility arrival_rate dt g0 sim0 H1 H2) as Hs.
    cbv zeta in Hs.
    destruct (MarketSimulator.step volatility arrival_rate dt (g0, sim0))
      as [[d|e] w']; exact Hs. }
  assert (Hrun : snd (MarketSimulator.run num_steps volatility arrival_rate dt (g, sim))
                 = snd (for_each (range num_steps)
                          (fun (_ : unit) (_ : nat) =>
                             MarketSimulator.step volatility arrival_rate dt ;;
                             ret tt)
                          tt (g, sim))).
  { unfold MarketSimulator.run. unfold bind at 1.
    destruct (for_each _ _ _ _) as [[u|e] [g' sim']]; reflexivity. }
  cbv zeta. rewrite Hrun. exact Hloop.
Qed.

End StepFacts.

(** C2.  For a quote size that is not negative, a positive limit and, when a
    risk manager is attached, a throttle floor in (0, 1]: from any state
    whose inventory is within the limit, whatever the generator draws and
    whatever the arguments of the calls, after every call of [step] the
    limit and the rest of the configuration are as before and the inventory
    is within the limit. *)
Theorem inventory_stays_within_limit {NP : NumpyRandom}
    (calls : list step_args) (g : rng) (sim : MarketSimulator.t) :
  limit_config (MarketSimulator.market_maker sim) ->
  within_limit (MarketSimulator.market_maker sim) ->
  Forall (fun w => limit_config (MarketSimulator.market_maker (snd w)) /\
                   within_limit (MarketSimulator.market_maker (snd w)))
         (step_trace calls (g, sim)).
Proof.
  revert g sim.
  induction calls as [|[[volatility arrival_rate] dt] rest IH];
    intros g sim Hcfg Hin; simpl.
  - constructor.
  - destruct (step_keeps_limit volatility arrival_rate dt g sim Hcfg Hin)
      as (Hcfg' & Hin').
    destruct (MarketSimulator.step volatility arrival_rate dt (g, sim))
      as [r [g' sim']].
    simpl in *. constructor; [auto |].
    apply IH; assumption.
Qed.

Lemma inventory_stays_within_limit_witness :
  Forall (fun w => limit_config (MarketSimulator.market_maker (snd w)) /\
                   within_limit (MarketSimulator.market_maker (snd w)))
         (@step_trace counter_generator
            [(1 # 100, 1, 1); (1 # 100, 1, 1); (1 # 100, 1 # 2, 1); (1 # 100, 1, 1)]
            (1%Z, managed_simulator)).
Proof.
  apply (@inventory_stays_within_limit counter_generator).
  - repeat split; vm_compute; congruence.
  - vm_compute; congruence.
Defined.

(** ** Reproducibility of seeded runs *)

Section Reproducibility.

Context {NP : NumpyRandom}.

(** Constructing a simulator with a seed puts the process-wide generator in
    the state of that seed, whatever state it was in. *)
Lemma init_reseeds (book : OrderBook.t) (maker : MarketMaker.t)
      (tracker : PnLTracker.t) (seed : Z) (g : rng) :
  MarketSimulator.init book maker tracker (Some seed) g
  = (Ok (MarketSimulator.mk book maker tracker 0 []), np_seed seed).
Proof. reflexivity. Qed.

(** Without a seed the constructor leaves the generator where it is. *)
Lemma init_without_seed (book : OrderBook.t) (maker : MarketMaker.t)
      (tracker : PnLTracker.t) (g : rng) :
  MarketSimulator.init book maker tracker None g
  = (Ok (MarketSimulator.mk book maker tracker 0 []), g).
Proof. reflexivity. Qed.

(** The draws of one step: the arrival draw, then the direction draw if the
    order arrived, then the price-move draw; nothing else touches the
    generator. *)
Lemma step_draws (volatility arrival_rate dt : Q) (g : rng) (sim : MarketSimulator.t) :
  fst (snd (MarketSimulator.step volatility arrival_rate dt (g, sim)))
  = draws_of_step volatility arrival_rate dt g.
Proof.
  destruct (get_quotes_returns (MarketSimulator.market_maker sim)
                               (MarketSimulator.order_book sim))
    as ([[[bid_price bid_size] ask_price] ask_size] & Hq).
  unfold draws_of_step.
  unfold_step. eval_step. rewrite Hq.
  run_step; reflexivity.
Qed.

Lemma construct_and_run_unfold (book : OrderBook.t) (maker : MarketMaker.t)
      (tracker : PnLTracker.t) (seed : Z) (num_steps : nat)
      (volatility arrival_rate dt : Q) (g : rng) :
  construct_and_run book maker tracker seed num_steps volatility arrival_rate dt g
  = run_on num_steps volatility arrival_rate dt
           (MarketSimulator.mk book maker tracker 0 []) (np_seed seed).
Proof. reflexivity. Qed.

(** When both simulators are constructed before either is run, the first
    runs from the state of the seed and the second from the state the first
    run left the generator in. *)
Lemma construct_both_then_run_unfold (book : OrderBook.t) (maker : MarketMaker.t)
      (tracker : PnLTracker.t) (seed : Z) (num_steps : nat)
      (volatility arrival_rate dt : Q) (g : rng) :
  let sim := MarketSimulator.mk book maker tracker 0 [] in
  let run := run_on num_steps volatility arrival_rate dt sim in
  construct_both_then_run book maker tracker seed num_steps
                          volatility arrival_rate dt g
  = match run (np_seed seed) with
    | (Ok history1, g1) =>
        match run g1 with
        | (Ok history2, g2) => (Ok (history1, history2), g2)
        | (Raise e, g2) => (Raise e, g2)
        end
    | (Raise e, g1) => (Raise e, g1)
    end.
Proof.
  intros sim run. unfold construct_both_then_run.
  unfold bind at 1. rewrite init_reseeds.
  unfold bind at 1. rewrite init_reseeds.
  unfold bind at 1. fold sim. fold run.
  destruct (run (np_seed seed)) as [[history1|e] g1]; [| reflexivity].
  unfold bind at 1. fold run.
  destruct (run g1) as [[history2|e] g2]; reflexivity.
Qed.

End Reproducibility.

(** C3, as stated, fails: two simulators with the same configuration and
    the same seed, both constructed before either is run, draw from the one
    process-wide generator, so the second continues the stream where the
    first left it.  On the counter generator, with the default
    configuration, seed 0 and two steps, the first simulator ends short 20
    units and the second long 20. *)
Lemma same_seed_instances_share_the_stream :
  ~ (forall (NP : NumpyRandom) (book : OrderBook.t) (maker : MarketMaker.t)
            (tracker : PnLTracker.t) (seed : Z) (num_steps : nat)
            (volatility arrival_rate dt : Q) (g : rng)
            (history1 history2 : list MarketSimulator.step_data),
        fst (construct_both_then_run book maker tracker seed num_steps
                                     volatility arrival_rate dt g)
        = Ok (history1, history2) ->
        same_sequence (mid_and_inventory history1) (mid_and_inventory history2)).
Proof.
  intros H.
  pose (r := fst (@construct_both_then_run counter_generator
                    default_book default_maker PnLTracker.init
                    0%Z 2%nat (1 # 100) 1 1 7%Z)).
  destruct r as [[history1 history2]|e] eqn:Hr; [| vm_compute in Hr; discriminate].
  specialize (H counter_generator default_book default_maker PnLTracker.init
                0%Z 2%nat (1 # 100) 1 1 7%Z history1 history2 Hr).
  vm_compute in Hr. injection Hr as <- <-.
  inversion H as [|p q s1 s2 [_ Hinv] _]; subst.
  vm_compute in Hinv. discriminate.
Qed.

(** C3, amended.  A simulator constructed with a seed and run at once for
    [num_steps] steps returns the same result, and leaves the generator in
    the same state, whatever state the process-wide generator was in before
    the construction; so two such simulators with the same configuration
    and seed, each constructed and run before the next is constructed,
    return the same history.  Each step draws from the generator in the
    order: arrival, direction if the order arrived, price move. *)
Theorem seeded_run_is_reproducible {NP : NumpyRandom}
    (book : OrderBook.t) (maker : MarketMaker.t) (tracker : PnLTracker.t)
    (seed : Z) (num_steps : nat) (volatility arrival_rate dt : Q) :
  let go := construct_and_run book maker tracker seed num_steps
                              volatility arrival_rate dt in
  (forall g1 g2 : rng, go g1 = go g2) /\
  (forall g : rng,
     fst (one_after_the_other book maker tracker seed num_steps
                              volatility arrival_rate dt g)
     = match fst (go g) with
       | Ok history => Ok (history, history)
       | Raise e => Raise e
       end) /\
  (forall (g : rng) (sim : MarketSimulator.t),
     fst (snd (MarketSimulator.step volatility arrival_rate dt (g, sim)))
     = draws_of_step volatility arrival_rate dt g).
Proof.
  intros go. split; [| split].
  - intros g1 g2. unfold go. rewrite !construct_and_run_unfold. reflexivity.
  - intros g. unfold one_after_the_other. unfold bind at 1.
    fold go.
    destruct (go g) as [[history|e] g'] eqn:E; [| reflexivity].
    unfold bind at 1. fold go.
    assert (E' : go g' = go g).
    { unfold go. rewrite !construct_and_run_unfold. reflexivity. }
    rewrite E', E. reflexivity.
  - apply step_draws.
Qed.

(** The repository's determinism test on the counter generator: the two
    histories are the same, each simulator ending short 20 units. *)
Example one_after_the_other_example :
  exists history,
    fst (@one_after_the_other counter_generator default_book default_maker
           PnLTracker.init 0%Z 2%nat (1 # 100) 1 1 7%Z)
    = Ok (history, history) /\
    same_sequence (mid_and_inventory history)
                  [(101, - (10 # 1)); (10201 # 100, - (20 # 1))].
Proof.
  eexists. split; [vm_compute; reflexivity |].
  repeat constructor.
Qed.

(** * Further properties *)

(** ** OrderBook: touch prices and impact *)






(** ** MarketMaker: bookkeeping of fills *)


(** A fill of either side never raises. *)
Lemma fills_return (price quantity : Q) (maker : MarketMaker.t) :
  fst (MarketMaker.execute_bid_fill price quantity maker) = Ok tt /\
  fst (MarketMaker.execute_ask_fill price quantity maker) = Ok tt.
Proof. split; reflexivity. Qed.





(** ** MarketMaker: average prices lie among the fill prices *)




(** ** RiskManager: when the switch does not trigger *)

Lemma kill_test_spec (self : RiskManager.t) (cash_pnl : Q) :
  reflect (kill_switch_triggered self cash_pnl)
          (RiskManager.enable_kill_switch self &&
           match RiskManager.drawdown_limit self with
           | Some d => Py.le cash_pnl (- Py.abs d)
           | None => false
           end).
Proof.
  unfold kill_switch_triggered, Py.abs.
  destruct (RiskManager.enable_kill_switch self); simpl.
  - destruct (RiskManager.drawdown_limit self) as [d|].
    + destruct (PyFacts.le_spec cash_pnl (- Qabs d)) as [H|H]; constructor.
      * split; [reflexivity |]. exists d. auto.
      * intros (_ & limit & E & Hle). injection E as <-. contradiction.
    + constructor. intros (_ & limit & E & _). discriminate.
  - constructor. intros (E & _). discriminate.
Qed.

(** [apply] when the switch does not trigger: the sizes are scaled when the
    throttle is enabled and the limit positive, passed through otherwise. *)
Lemma apply_not_triggered (self : RiskManager.t)
      (bid_price bid_size ask_price ask_size inventory max_inventory cash_pnl : Q) :
  ~ kill_switch_triggered self cash_pnl ->
  RiskManager.apply bid_price bid_size ask_price ask_size
                    inventory max_inventory cash_pnl self
  = (Ok (if RiskManager.enable_size_throttle self && Py.gt max_inventory 0
         then
           let scale := Py.max (RiskManager.min_throttle self)
                               (1 - Py.min 1 (Qabs inventory / max_inventory)) in
           RiskManager.mkq bid_price (bid_size * scale)
                           ask_price (ask_size * scale) true
         else RiskManager.mkq bid_price bid_size ask_price ask_size true),
     self).
Proof.
  intros Hnot. unfold RiskManager.apply. unfold_m.
  destruct (kill_test_spec self cash_pnl) as [H|_]; [contradiction |].
  destruct (RiskManager.enable_size_throttle self); simpl; [| reflexivity].
  destruct (PyFacts.gt_spec max_inventory 0) as [Hm|Hm]; [| reflexivity].
  rewrite PyFacts.div_ok by lra. reflexivity.
Qed.

(** [apply] when the switch triggers. *)
Lemma apply_triggered (self : RiskManager.t)
      (bid_price bid_size ask_price ask_size inventory max_inventory cash_pnl : Q) :
  kill_switch_triggered self cash_pnl ->
  RiskManager.apply bid_price bid_size ask_price ask_size
                    inventory max_inventory cash_pnl self
  = (Ok (RiskManager.mkq bid_price 0 ask_price 0 false), self).
Proof.
  intros Htrig. unfold RiskManager.apply. unfold_m.
  destruct (kill_test_spec self cash_pnl) as [_|H]; [reflexivity | contradiction].
Qed.

(** X8.  [apply] reports [is_active = False] exactly when the kill switch
    triggers, and then both sizes are zero; no other setting of the manager
    deactivates the quote. *)
Theorem inactive_iff_kill_switch (self : RiskManager.t)
    (bid_price bid_size ask_price ask_size inventory max_inventory cash_pnl : Q) :
  exists q,
    RiskManager.apply bid_price bid_size ask_price ask_size
                      inventory max_inventory cash_pnl self = (Ok q, self) /\
    (RiskManager.q_is_active q = false <-> kill_switch_triggered self cash_pnl) /\
    (RiskManager.q_is_active q = false ->
     RiskManager.q_bid_size q = 0 /\ RiskManager.q_ask_size q = 0).
Proof.
  destruct (kill_test_spec self cash_pnl) as [H|H].
  - rewrite (apply_triggered self bid_price bid_size ask_price ask_size
               inventory max_inventory cash_pnl H).
    eexists. split; [reflexivity |]. simpl. split; [| auto].
    split; [intros _; exact H | reflexivity].
  - rewrite (apply_not_triggered self bid_price bid_size ask_price ask_size
               inventory max_inventory cash_pnl H).
    eexists. split; [reflexivity |].
    destruct (RiskManager.enable_size_throttle self && Py.gt max_inventory 0);
      simpl; (split; [split; [discriminate | contradiction] | discriminate]).
Qed.

(** X9.  With the switch not triggered, and the throttle disabled or the
    limit not positive, [apply] hands back exactly the quote it was given,
    active. *)
Theorem apply_passes_through (self : RiskManager.t)
    (bid_price bid_size ask_price ask_size inventory max_inventory cash_pnl : Q) :
  ~ kill_switch_triggered self cash_pnl ->
  RiskManager.enable_size_throttle self = false \/ max_inventory <= 0 ->
  RiskManager.apply bid_price bid_size ask_price ask_size
                    inventory max_inventory cash_pnl self
  = (Ok (RiskManager.mkq bid_price bid_size ask_price ask_size true), self).
Proof.
  intros Hnot Hoff.
  rewrite (apply_not_triggered self bid_price bid_size ask_price ask_size
             inventory max_inventory cash_pnl Hnot).
  destruct Hoff as [E|Hm].
  - rewrite E. reflexivity.
  - destruct (PyFacts.gt_spec max_inventory 0) as [H|_]; [lra |].
    rewrite andb_false_r. reflexivity.
Qed.

Lemma apply_passes_through_witness :
  RiskManager.apply (99 # 1) 10 (101 # 1) 10 50 0 (- (25 # 1)) combined_manager
  = (Ok (RiskManager.mkq (99 # 1) 10 (101 # 1) 10 true), combined_manager).
Proof.
  apply (apply_passes_through combined_manager).
  - intros (_ & limit & E & H). injection E as <-. vm_compute in H. congruence.
  - right. vm_compute. discriminate.
Defined.

(** X10.  With the switch not triggered, the throttle enabled, a positive
    limit and a floor in [0, 1], the throttle never enlarges a size that is
    not negative and never cuts it below the floor's share of it. *)
Theorem throttle_bounds (self : RiskManager.t)
    (bid_price bid_size ask_price ask_size inventory max_inventory cash_pnl : Q) :
  ~ kill_switch_triggered self cash_pnl ->
  RiskManager.enable_size_throttle self = true ->
  0 < max_inventory ->
  0 <= RiskManager.min_throttle self <= 1 ->
  0 <= bid_size -> 0 <= ask_size ->
  exists q,
    RiskManager.apply bid_price bid_size ask_price ask_size
                      inventory max_inventory cash_pnl self = (Ok q, self) /\
    RiskManager.q_is_active q = true /\
    RiskManager.min_throttle self * bid_size <= RiskManager.q_bid_size q <= bid_size /\
    RiskManager.min_throttle self * ask_size <= RiskManager.q_ask_size q <= ask_size.
Proof.
  intros Hnot Hon Hmax (Hfloor0 & Hfloor1) Hbid Hask.
  rewrite (apply_not_triggered self bid_price bid_size ask_price ask_size
             inventory max_inventory cash_pnl Hnot).
  rewrite Hon.
  destruct (PyFacts.gt_spec max_inventory 0) as [_|H]; [| lra].
  simpl. eexists. split; [reflexivity |]. simpl.
  pose proof (throttle_scale_bounds (RiskManager.min_throttle self)
                inventory max_inventory Hmax Hfloor1) as Hsc.
  cbv zeta in Hsc.
  set (scale := Py.max (RiskManager.min_throttle self)
                       (1 - Py.min 1 (Qabs inventory / max_inventory))) in *.
  split; [reflexivity |].
  split; split; nra.
Qed.

Lemma throttle_bounds_witness :
  exists q,
    RiskManager.apply (99 # 1) 10 (101 # 1) 10 50 100 (- (25 # 1)) combined_manager
    = (Ok q, combined_manager) /\
    RiskManager.q_is_active q = true /\
    (3 # 10) * 10 <= RiskManager.q_bid_size q <= 10 /\
    (3 # 10) * 10 <= RiskManager.q_ask_size q <= 10.
Proof.
  apply (throttle_bounds combined_manager).
  - intros (_ & limit & E & H). injection E as <-. vm_compute in H. congruence.
  - reflexivity.
  - reflexivity.
  - split; vm_compute; congruence.
  - vm_compute; congruence.
  - vm_compute; congruence.
Defined.

(** X11.  The two ends of the throttle, with the switch not triggered, the
    throttle enabled, a positive limit and a floor in [0, 1]: a flat
    inventory leaves the sizes as they are, and an inventory at or beyond
    the limit, long or short, scales both sizes by the floor. *)
Theorem throttle_ends (self : RiskManager.t)
    (bid_price bid_size ask_price ask_size inventory max_inventory cash_pnl : Q) :
  ~ kill_switch_triggered self cash_pnl ->
  RiskManager.enable_size_throttle self = true ->
  0 < max_inventory ->
  0 <= RiskManager.min_throttle self <= 1 ->
  exists q,
    RiskManager.apply bid_price bid_size ask_price ask_size
                      inventory max_inventory cash_pnl self = (Ok q, self) /\
    (inventory == 0 ->
     RiskManager.q_bid_size q == bid_size /\ RiskManager.q_ask_size q == ask_size) /\
    (max_inventory <= Qabs inventory ->
     RiskManager.q_bid_size q == bid_size * RiskManager.min_throttle self /\
     RiskManager.q_ask_size q == ask_size * RiskManager.min_throttle self).
Proof.
  intros Hnot Hon Hmax (Hfloor0 & Hfloor1).
  rewrite (apply_not_triggered self bid_price bid_size ask_price ask_size
             inventory max_inventory cash_pnl Hnot).
  rewrite Hon.
  destruct (PyFacts.gt_spec max_inventory 0) as [_|H]; [| lra].
  simpl. eexists. split; [reflexivity |]. simpl.
  split.
  - intros Hflat.
    assert (Hr : Qabs inventory / max_inventory == 0).
    { rewrite Hflat. simpl. unfold Qdiv. ring. }
    assert (Hs : Py.max (RiskManager.min_throttle self)
                        (1 - Py.min 1 (Qabs inventory / max_inventory)) == 1).
    { unfold Py.max, Py.min.
      destruct (PyFacts.lt_spec (Qabs inventory / max_inventory) 1) as [H1|H1];
        [| lra].
      destruct (PyFacts.gt_spec (1 - Qabs inventory / max_inventory)
                                (RiskManager.min_throttle self)); lra. }
    rewrite Hs. split; ring.
  - intros Hfull.
    assert (Hr : 1 <= Qabs inventory / max_inventory).
    { apply Qle_shift_div_l; [exact Hmax | lra]. }
    assert (Hs : Py.max (RiskManager.min_throttle self)
                        (1 - Py.min 1 (Qabs inventory / max_inventory))
                 == RiskManager.min_throttle self).
    { unfold Py.max, Py.min.
      destruct (PyFacts.lt_spec (Qabs inventory / max_inventory) 1) as [H1|H1];
        [lra |].
      destruct (PyFacts.gt_spec (1 - 1) (RiskManager.min_throttle self)); lra. }
    rewrite Hs. split; reflexivity.
Qed.

Lemma throttle_ends_witness :
  exists q,
    RiskManager.apply (99 # 1) 10 (101 # 1) 10 (- (120 # 1)) 100 0 combined_manager
    = (Ok q, combined_manager) /\
    (- (120 # 1) == 0 ->
     RiskManager.q_bid_size q == 10 /\ RiskManager.q_ask_size q == 10) /\
    (100 <= Qabs (- (120 # 1)) ->
     RiskManager.q_bid_size q == 10 * (3 # 10) /\
     RiskManager.q_ask_size q == 10 * (3 # 10)).
Proof.
  apply (throttle_ends combined_manager).
  - intros (_ & limit & E & H). injection E as <-. vm_compute in H. congruence.
  - reflexivity.
  - reflexivity.
  - split; vm_compute; congruence.
Defined.

(** ** MarketMaker.get_quotes: prices and sizes, with or without a manager *)



(** The repository's short-inventory test: at inventory -50 the bid is
    100.45 and the ask 99.55. *)
Example quotes_crossed_when_short :
  exists bid_price bid_size ask_price ask_size,
    fst (MarketMaker.get_quotes (MarketMaker.set_inventory (- (50 # 1)) default_maker,
                                 default_book))
    = Ok (bid_price, bid_size, ask_price, ask_size) /\
    bid_price == 10045 # 100 /\ ask_price == 9955 # 100 /\ ask_price < bid_price.
Proof. do 4 eexists. split; [reflexivity |]. repeat split. Qed.

(** With the kill switch of the attached manager triggered by the maker's
    cash PnL, both quoted sizes are zero. *)
Lemma get_quotes_killed (self : MarketMaker.t) (book : OrderBook.t)
      (rm : RiskManager.t) :
  MarketMaker.risk_manager self = Some rm ->
  kill_switch_triggered rm (MarketMaker.total_sell_value self
                            - MarketMaker.total_buy_value self) ->
  MarketMaker.get_quotes (self, book)
  = (Ok (raw_bid_price self (OrderBook.mid_price book), 0,
         raw_ask_price self (OrderBook.mid_price book), 0), (self, book)).
Proof.
  intros Hrm Htrig.
  pose proof (get_quotes_unfold self book) as H. cbv zeta in H.
  rewrite Hrm in H. destruct H as (q & Happly & Hq).
  rewrite (apply_triggered rm _ _ _ _ _ _ _ Htrig) in Happly.
  injection Happly as <-. exact Hq.
Qed.

(** X13.  Under the configurations of the position limit (quote size not
    negative, positive limit, throttle floor in (0, 1] when a manager is
    attached), each quoted size is between zero and the configured quote
    size. *)
Theorem quoted_sizes_bounded (self : MarketMaker.t) (book : OrderBook.t) :
  limit_config self ->
  exists bid_price bid_size ask_price ask_size,
    MarketMaker.get_quotes (self, book)
    = (Ok (bid_price, bid_size, ask_price, ask_size), (self, book)) /\
    0 <= bid_size <= MarketMaker.quote_size self /\
    0 <= ask_size <= MarketMaker.quote_size self.
Proof.
  intros (Hsize & Hmax & Hrm).
  assert (Hb : 0 <= raw_bid_size self <= MarketMaker.quote_size self).
  { destruct (raw_bid_size_cases self) as [(E & _) | E]; rewrite E; lra. }
  assert (Ha : 0 <= raw_ask_size self <= MarketMaker.quote_size self).
  { destruct (raw_ask_size_cases self) as [(E & _) | E]; rewrite E; lra. }
  pose proof (get_quotes_unfold self book) as H. cbv zeta in H.
  destruct (MarketMaker.risk_manager self) as [rm|].
  - destruct H as (q & Happly & Hq).
    destruct (apply_returns rm
                (raw_bid_price self (OrderBook.mid_price book)) (raw_bid_size self)
                (raw_ask_price self (OrderBook.mid_price book)) (raw_ask_size self)
                (MarketMaker.inventory self) (MarketMaker.max_inventory self)
                (MarketMaker.total_sell_value self - MarketMaker.total_buy_value self))
      as (q' & Happly' & _ & _ & Hcases).
    rewrite Happly in Happly'. injection Happly' as <-.
    do 4 eexists. split; [exact Hq |].
    destruct Hrm as (Hfloor & Hone).
    destruct Hcases as [(Hb0 & Ha0) | [(_ & Hb1 & Ha1) | (_ & scale & Hscale & Hb2 & Ha2)]].
    + rewrite Hb0, Ha0. lra.
    + rewrite Hb1, Ha1. lra.
    + pose proof (throttle_scale_bounds (RiskManager.min_throttle rm)
                    (MarketMaker.inventory self) _ Hmax Hone) as Hsc.
      cbv zeta in Hsc. rewrite <- Hscale in Hsc.
      rewrite Hb2, Ha2. repeat split; nra.
  - do 4 eexists. split; [exact H |]. lra.
Qed.

Lemma quoted_sizes_bounded_witness :
  exists bid_price bid_size ask_price ask_size,
    MarketMaker.get_quotes (managed_maker, default_book)
    = (Ok (bid_price, bid_size, ask_price, ask_size), (managed_maker, default_book)) /\
    0 <= bid_size <= 10 /\
    0 <= ask_size <= 10.
Proof.
  apply (quoted_sizes_bounded managed_maker default_book).
  repeat split; vm_compute; congruence.
Defined.

(** ** MarketSimulator.step: what one step books and records *)

(** Closes one case of a step once the body has been run. *)
Ltac close_step_case :=
  repeat split;
  try assumption; try reflexivity;
  try match goal with
      | H : Raise _ = Ok _ |- _ => discriminate H
      | H : Ok _ = Ok _ |- _ => injection H as <-; reflexivity
      end.

Section StepRecords.

Context {NP : NumpyRandom}.

Variables volatility arrival_rate dt : Q.
Variable g : rng.
Variable sim : MarketSimulator.t.
Variables bid_price bid_size ask_price ask_size : Q.

Hypothesis Hquotes :
  MarketMaker.get_quotes (MarketSimulator.market_maker sim, MarketSimulator.order_book sim)
  = (Ok (bid_price, bid_size, ask_price, ask_size),
     (MarketSimulator.market_maker sim, MarketSimulator.order_book sim)).

Let outcome := MarketSimulator.step volatility arrival_rate dt (g, sim).
Let sim' := snd (snd outcome).
Let now := MarketSimulator.current_time sim + dt.
Let mid := OrderBook.mid_price (MarketSimulator.order_book sim).
Let maker := MarketSimulator.market_maker sim.
Let trades := PnLTracker.trades (MarketSimulator.pnl_tracker sim).

Lemma step_trade_cases :
  let maker' := MarketSimulator.market_maker sim' in
  let trades' := PnLTracker.trades (MarketSimulator.pnl_tracker sim') in
  (maker' = maker /\ trades' = trades /\
   forall d, fst outcome = Ok d ->
     MarketSimulator.sd_trade_occurred d = false /\
     MarketSimulator.sd_trade_side d = None /\
     MarketSimulator.sd_trade_price d = None /\
     MarketSimulator.sd_trade_quantity d = None) \/
  (0 < ask_size /\
   maker' = snd (MarketMaker.execute_ask_fill ask_price ask_size maker) /\
   trades' = trades ++ [sell_trade now ask_price ask_size mid] /\
   forall d, fst outcome = Ok d ->
     MarketSimulator.sd_trade_occurred d = true /\
     MarketSimulator.sd_trade_side d = Some "sell"%string /\
     MarketSimulator.sd_trade_price d = Some ask_price /\
     MarketSimulator.sd_trade_quantity d = Some ask_size) \/
  (0 < bid_size /\
   maker' = snd (MarketMaker.execute_bid_fill bid_price bid_size maker) /\
   trades' = trades ++ [buy_trade now bid_price bid_size mid] /\
   forall d, fst outcome = Ok d ->
     MarketSimulator.sd_trade_occurred d = true /\
     MarketSimulator.sd_trade_side d = Some "buy"%string /\
     MarketSimulator.sd_trade_price d = Some bid_price /\
     MarketSimulator.sd_trade_quantity d = Some bid_size).
Proof.
  subst outcome sim' now mid maker trades. cbv zeta.
  unfold_step. eval_step. rewrite Hquotes.
  run_step;
    first [ left; solve [close_step_case]
          | right; left; solve [close_step_case]
          | right; right; solve [close_step_case] ].
Qed.

Lemma step_bookkeeping :
  let book := MarketSimulator.order_book sim in
  let book' := MarketSimulator.order_book sim' in
  let maker' := MarketSimulator.market_maker sim' in
  let snapshots := PnLTracker.inventory_snapshots (MarketSimulator.pnl_tracker sim) in
  let snapshots' := PnLTracker.inventory_snapshots (MarketSimulator.pnl_tracker sim') in
  MarketSimulator.current_time sim' = now /\
  OrderBook.spread book' = OrderBook.spread book /\
  OrderBook.depth_per_level book' = OrderBook.depth_per_level book /\
  OrderBook.num_levels book' = OrderBook.num_levels book /\
  match fst outcome with
  | Ok d =>
      MarketSimulator.history sim' = MarketSimulator.history sim ++ [d] /\
      snapshots' = snapshots ++ [(now, MarketMaker.inventory maker',
                                  OrderBook.mid_price book')] /\
      MarketSimulator.sd_time d = now /\
      MarketSimulator.sd_mid_price d = OrderBook.mid_price book' /\
      MarketSimulator.sd_inventory d = MarketMaker.inventory maker' /\
      MarketSimulator.sd_bid_price d = bid_price /\
      MarketSimulator.sd_ask_price d = ask_price /\
      MarketMaker.get_cash_pnl maker' = (Ok (MarketSimulator.sd_cash_pnl d), maker') /\
      MarketMaker.get_total_pnl (OrderBook.mid_price book') maker'
      = (Ok (MarketSimulator.sd_total_pnl d), maker')
  | Raise _ =>
      MarketSimulator.history sim' = MarketSimulator.history sim /\
      snapshots' = snapshots /\
      book' = book
  end.
Proof.
  subst outcome sim' now mid maker trades. cbv zeta.
  unfold_step. eval_step. rewrite Hquotes.
  run_step; repeat split; destruct sim as [[] ? ? ? ?]; reflexivity.
Qed.

End StepRecords.

(** X14.  Every call of [step] advances the clock by [dt] and leaves the
    book's half-spread, depth and number of levels alone.  A call that
    returns appends exactly its own record to the history and one snapshot,
    stamped with the new time, the inventory after the trade and the mid
    after the move, and the record's PnL figures are the maker's at that mid.
    A call that raises in the price move appends neither and leaves the
    book as it was. *)
Theorem step_appends_one_record {NP : NumpyRandom}
    (volatility arrival_rate dt : Q) (g : rng) (sim : MarketSimulator.t) :
  let outcome := MarketSimulator.step volatility arrival_rate dt (g, sim) in
  let sim' := snd (snd outcome) in
  let now := MarketSimulator.current_time sim + dt in
  let book := MarketSimulator.order_book sim in
  let book' := MarketSimulator.order_book sim' in
  let maker' := MarketSimulator.market_maker sim' in
  let snapshots := PnLTracker.inventory_snapshots (MarketSimulator.pnl_tracker sim) in
  let snapshots' := PnLTracker.inventory_snapshots (MarketSimulator.pnl_tracker sim') in
  MarketSimulator.current_time sim' = now /\
  OrderBook.spread book' = OrderBook.spread book /\
  OrderBook.depth_per_level book' = OrderBook.depth_per_level book /\
  OrderBook.num_levels book' = OrderBook.num_levels book /\
  match fst outcome with
  | Ok d =>
      MarketSimulator.history sim' = MarketSimulator.history sim ++ [d] /\
      snapshots' = snapshots ++ [(now, MarketMaker.inventory maker',
                                  OrderBook.mid_price book')] /\
      MarketSimulator.sd_time d = now /\
      MarketSimulator.sd_mid_price d = OrderBook.mid_price book' /\
      MarketSimulator.sd_inventory d = MarketMaker.inventory maker' /\
      MarketMaker.get_cash_pnl maker' = (Ok (MarketSimulator.sd_cash_pnl d), maker') /\
      MarketMaker.get_total_pnl (OrderBook.mid_price book') maker'
      = (Ok (MarketSimulator.sd_total_pnl d), maker')
  | Raise _ =>
      MarketSimulator.history sim' = MarketSimulator.history sim /\
      snapshots' = snapshots /\
      book' = book
  end.
Proof.
  destruct (get_quotes_returns (MarketSimulator.market_maker sim)
                               (MarketSimulator.order_book sim))
    as ([[[bid_price bid_size] ask_price] ask_size] & Hq).
  pose proof (step_bookkeeping volatility arrival_rate dt g sim
                bid_price bid_size ask_price ask_size Hq) as H.
  cbv zeta in H |- *.
  destruct H as (H1 & H2 & H3 & H4 & H5).
  repeat (split; [assumption |]).
  destruct (fst (MarketSimulator.step volatility arrival_rate dt (g, sim))) as [d|e].
  - destruct H5 as (A1 & A2 & A3 & A4 & A5 & _ & _ & A8 & A9). auto 10.
  - exact H5.
Qed.


(** ** The kill switch stops trading for good *)

(** X16.  Once the kill switch of the attached manager is triggered by the
    maker's cash PnL, no later step trades: after every call of [step],
    whatever the draws and the arguments, the maker and the ledger of
    trades are exactly as they were.  The cash PnL only changes through
    fills, so the switch never releases. *)
Theorem kill_switch_halts_trading {NP : NumpyRandom}
    (calls : list step_args) (g : rng) (sim : MarketSimulator.t)
    (rm : RiskManager.t) :
  MarketMaker.risk_manager (MarketSimulator.market_maker sim) = Some rm ->
  kill_switch_triggered rm
    (MarketMaker.total_sell_value (MarketSimulator.market_maker sim)
     - MarketMaker.total_buy_value (MarketSimulator.market_maker sim)) ->
  Forall (fun w =>
            MarketSimulator.market_maker (snd w) = MarketSimulator.market_maker sim /\
            PnLTracker.trades (MarketSimulator.pnl_tracker (snd w))
            = PnLTracker.trades (MarketSimulator.pnl_tracker sim))
         (step_trace calls (g, sim)).
Proof.
  intros Hrm Htrig.
  remember (MarketSimulator.market_maker sim) as maker eqn:Hmaker.
  remember (PnLTracker.trades (MarketSimulator.pnl_tracker sim)) as trades eqn:Htrades.
  revert g sim Hmaker Htrades.
  induction calls as [|[[volatility arrival_rate] dt] rest IH];
    intros g sim Hmaker Htrades; simpl.
  - constructor.
  - assert (Hq := get_quotes_killed (MarketSimulator.market_maker sim)
                    (MarketSimulator.order_book sim) rm).
    rewrite <- Hmaker in Hq. specialize (Hq Hrm Htrig). rewrite Hmaker in Hq.
    pose proof (step_trade_cases volatility arrival_rate dt g sim _ _ _ _ Hq) as H.
    cbv zeta in H.
    destruct H as [(Hm & Ht & _) | [(Hpos & _) | (Hpos & _)]];
      [| inversion Hpos | inversion Hpos].
    destruct (MarketSimulator.step volatility arrival_rate dt (g, sim))
      as [r [g' sim']].
    simpl in *.
    constructor; [simpl; split; congruence |].
    apply IH; congruence.
Qed.

Lemma kill_switch_halts_trading_witness :
  Forall (fun w =>
            MarketSimulator.market_maker (snd w)
            = MarketSimulator.market_maker killed_simulator /\
            PnLTracker.trades (MarketSimulator.pnl_tracker (snd w))
            = PnLTracker.trades (MarketSimulator.pnl_tracker killed_simulator))
         (@step_trace counter_generator test_calls (0%Z, killed_simulator)).
Proof.
  apply (@kill_switch_halts_trading counter_generator test_calls 0%Z
           killed_simulator combined_manager).
  - reflexivity.
  - split; [reflexivity |]. exists 50. split; [reflexivity |].
    vm_compute. congruence.
Defined.

(** ** The ledger and the maker stay in step *)




(** On the counter generator, four steps from the test simulator: the
    inventory is the ledger's net quantity after each. *)
Example ledger_matches_maker_example :
  Forall (fun w =>
            MarketMaker.inventory (MarketSimulator.market_maker (snd w))
            == ledger_position (PnLTracker.trades (MarketSimulator.pnl_tracker (snd w))))
         (@step_trace counter_generator test_calls (0%Z, test_simulator)).
Proof. repeat constructor. Qed.

(** ** MarketSimulator.run *)






(** ** MarketSimulator.simulate_order_flow *)

(** X19.  When the arrival draw lies in [0, 1), as a uniform draw does: an
    arrival rate of 0 or less never lets an order arrive, and consumes the
    one draw; an arrival rate of 1 or more always lets an order arrive, buy
    or sell, and consumes two draws.  The simulator itself is not touched. *)
Theorem order_flow_extremes {NP : NumpyRandom}
    (arrival_rate : Q) (g : rng) (sim : MarketSimulator.t) :
  0 <= fst (np_random g) < 1 ->
  (arrival_rate <= 0 ->
   MarketSimulator.simulate_order_flow arrival_rate (g, sim)
   = (Ok None, (snd (np_random g), sim))) /\
  (1 <= arrival_rate ->
   exists side,
     MarketSimulator.simulate_order_flow arrival_rate (g, sim)
     = (Ok (Some side), (snd (np_random (snd (np_random g))), sim)) /\
     (side = "buy"%string \/ side = "sell"%string)).
Proof.
  intros (Hlo & Hhi).
  unfold MarketSimulator.simulate_order_flow, MarketSimulator.on_np,
    MarketSimulator.random, bind, ret, zoom.
  cbn [fst snd].
  destruct (np_random g) as [u g1]. cbn [fst snd] in *.
  split; intros Hrate.
  - destruct (PyFacts.lt_spec u arrival_rate) as [H|H]; [lra | reflexivity].
  - destruct (PyFacts.lt_spec u arrival_rate) as [H|H]; [| lra].
    cbn [fst snd]. destruct (np_random g1) as [v g2]. cbn [fst snd].
    destruct (Py.lt v (1 # 2)); eexists; split; try reflexivity; auto.
Qed.

Lemma order_flow_extremes_witness :
  (0 <= 0 ->
   @MarketSimulator.simulate_order_flow counter_generator 0 (1%Z, test_simulator)
   = (Ok None, (2%Z, test_simulator))) /\
  (1 <= 0 ->
   exists side,
     @MarketSimulator.simulate_order_flow counter_generator 0 (1%Z, test_simulator)
     = (Ok (Some side), (3%Z, test_simulator)) /\
     (side = "buy"%string \/ side = "sell"%string)).
Proof.
  apply (@order_flow_extremes counter_generator 0 1%Z test_simulator).
  split; vm_compute; congruence.
Defined.

(** ** The edge earned by each trade of the simulator *)


(** ** PnLTracker.get_inventory_pnl *)

Lemma for_each_ext {S A X} (xs : list X) (body1 body2 : A -> X -> M S A) :
  (forall a x s, In x xs -> body1 a x s = body2 a x s) ->
  forall acc s, for_each xs body1 acc s = for_each xs body2 acc s.
Proof.
  induction xs as [|x xs IH]; intros Hext acc s; simpl.
  - reflexivity.
  - unfold bind. rewrite (Hext acc x s) by (left; reflexivity).
    destruct (body2 acc x s) as [[a|e] s']; [| reflexivity].
    apply IH. intros a0 x0 s0 Hin. apply Hext. right. exact Hin.
Qed.

Lemma get_inventory_pnl_unfold (self : PnLTracker.t) :
  PnLTracker.get_inventory_pnl self
  = let snaps := PnLTracker.inventory_snapshots self in
    if (length snaps <? 2)%nat then (Ok 0, self)
    else for_each (range_from 1 (length snaps)) (inventory_loop_body snaps) 0 self.
Proof.
  unfold PnLTracker.get_inventory_pnl, inventory_loop_body.
  unfold bind at 1. unfold gets at 1. cbv zeta.
  destruct (length (PnLTracker.inventory_snapshots self) <? 2)%nat; reflexivity.
Qed.

(** Past the first snapshot, the loop over a list with one more snapshot in
    front is the loop over the list, one index up. *)
Lemma inventory_loop_body_shift (s0 : Q * Q * Q) (snaps : list (Q * Q * Q))
      (acc : Q) (i : nat) (self : PnLTracker.t) :
  (1 <= i)%nat ->
  inventory_loop_body (s0 :: snaps) acc (S i) self
  = inventory_loop_body snaps acc i self.
Proof.
  intros Hi. unfold inventory_loop_body.
  destruct i as [|j]; [lia |].
  replace (S (S j) - 1)%nat with (S (S j - 1)) by lia.
  reflexivity.
Qed.

(** The loop never indexes out of range, leaves the tracker alone, and its
    accumulator ends at the sum over consecutive pairs. *)
Lemma inventory_loop_sum (rest : list (Q * Q * Q)) :
  forall (s0 : Q * Q * Q) (acc : Q) (self : PnLTracker.t),
  exists r,
    for_each (seq 1 (length rest)) (inventory_loop_body (s0 :: rest)) acc self
    = (Ok r, self) /\
    r == acc + inventory_pairs_sum (s0 :: rest).
Proof.
  induction rest as [|s1 rest IH]; intros s0 acc self.
  - exists acc. split; [reflexivity | simpl; ring].
  - simpl length. rewrite <- cons_seq, <- seq_shift.
    cbn [for_each]. unfold bind at 1.
    assert (Hhead : inventory_loop_body (s0 :: s1 :: rest) acc 1 self
                    = (Ok (acc + snd (fst s0) * (snd s1 - snd s0)), self)).
    { destruct s0 as [[t0 i0] m0], s1 as [[t1 i1] m1]. reflexivity. }
    rewrite Hhead. rewrite for_each_map.
    rewrite (for_each_ext (seq 1 (length rest))
               (fun a x => inventory_loop_body (s0 :: s1 :: rest) a (S x))
               (inventory_loop_body (s1 :: rest))).
    + destruct (IH s1 (acc + snd (fst s0) * (snd s1 - snd s0)) self)
        as (r & Hr & Hsum).
      exists r. split; [exact Hr |].
      rewrite Hsum.
      change (inventory_pairs_sum (s0 :: s1 :: rest))
        with (snd (fst s0) * (snd s1 - snd s0) + inventory_pairs_sum (s1 :: rest)).
      ring.
    + intros a x s Hin. apply inventory_loop_body_shift.
      apply in_seq in Hin. lia.
Qed.

Lemma get_inventory_pnl_returns (self : PnLTracker.t) :
  exists r,
    PnLTracker.get_inventory_pnl self = (Ok r, self) /\
    r == inventory_pairs_sum (PnLTracker.inventory_snapshots self).
Proof.
  rewrite get_inventory_pnl_unfold. cbv zeta.
  destruct (PnLTracker.inventory_snapshots self) as [|s0 rest].
  - exists 0. split; reflexivity.
  - destruct rest as [|s1 rest].
    + exists 0. split; reflexivity.
    + change (length (s0 :: s1 :: rest) <? 2)%nat with false. cbv iota.
      unfold range_from.
      replace (length (s0 :: s1 :: rest) - 1)%nat with (length (s1 :: rest))
        by (simpl; lia).
      destruct (inventory_loop_sum (s1 :: rest) s0 0 self) as (r & Hr & Hsum).
      exists r. split; [exact Hr |]. rewrite Hsum. ring.
Qed.

Lemma last_cons_default {A} (l : list A) :
  forall a d, last (a :: l) d = last l a.
Proof.
  induction l as [|b l IH]; intros a d; [reflexivity |].
  change (last (a :: b :: l) d) with (last (b :: l) d).
  rewrite (IH b d), (IH b a). reflexivity.
Qed.



(** The example of the spec evaluated: the inventory PnL is 10. *)
Example inventory_pnl_example :
  exists r,
    PnLTracker.get_inventory_pnl example_snapshots = (Ok r, example_snapshots) /\
    r == 10.
Proof. eexists. split; [vm_compute; reflexivity | reflexivity]. Qed.

(** ** PnLTracker: counting and summing the ledger *)

Lemma count_side_acc (s : string) (ts : list PnLTracker.trade) (n : nat) :
  fold_left (fun n tr => if String.eqb (PnLTracker.side tr) s then (n + 1)%nat else n)
            ts n
  = (n + PnLTracker.count_side s ts)%nat.
Proof.
  unfold PnLTracker.count_side. revert n.
  induction ts as [|tr ts IH]; intros n; simpl.
  - lia.
  - rewrite IH. rewrite (IH (if String.eqb (PnLTracker.side tr) s then 1 else 0)%nat).
    destruct (String.eqb (PnLTracker.side tr) s); lia.
Qed.

Lemma count_side_cons (s : string) (tr : PnLTracker.trade) (ts : list PnLTracker.trade) :
  PnLTracker.count_side s (tr :: ts)
  = ((if String.eqb (PnLTracker.side tr) s then 1 else 0)
     + PnLTracker.count_side s ts)%nat.
Proof.
  unfold PnLTracker.count_side at 1. simpl. rewrite count_side_acc.
  destruct (String.eqb (PnLTracker.side tr) s); reflexivity.
Qed.

Lemma count_side_app (s : string) (ts : list PnLTracker.trade) (tr : PnLTracker.trade) :
  PnLTracker.count_side s (ts ++ [tr])
  = (PnLTracker.count_side s ts
     + (if String.eqb (PnLTracker.side tr) s then 1 else 0))%nat.
Proof.
  unfold PnLTracker.count_side at 1. rewrite fold_left_app. simpl.
  fold (PnLTracker.count_side s ts).
  destruct (String.eqb (PnLTracker.side tr) s); lia.
Qed.

Lemma count_sides_partition (ts : list PnLTracker.trade) :
  (PnLTracker.count_side "buy" ts + PnLTracker.count_side "sell" ts <= length ts)%nat /\
  ((PnLTracker.count_side "buy" ts + PnLTracker.count_side "sell" ts = length ts)%nat
   <-> Forall known_side ts).
Proof.
  induction ts as [|tr ts (IHle & IHeq)].
  - split; [reflexivity |]. split; [constructor | reflexivity].
  - rewrite !count_side_cons. simpl length.
    assert (Hside : (String.eqb (PnLTracker.side tr) "buy" = true /\
                     String.eqb (PnLTracker.side tr) "sell" = false /\
                     known_side tr) \/
                    (String.eqb (PnLTracker.side tr) "buy" = false /\
                     String.eqb (PnLTracker.side tr) "sell" = true /\
                     known_side tr) \/
                    (String.eqb (PnLTracker.side tr) "buy" = false /\
                     String.eqb (PnLTracker.side tr) "sell" = false /\
                     ~ known_side tr)).
    { unfold known_side.
      destruct (String.eqb_spec (PnLTracker.side tr) "buy") as [E|E].
      - left. rewrite E. auto.
      - destruct (String.eqb_spec (PnLTracker.side tr) "sell") as [E'|E'].
        + right. left. auto.
        + right. right. repeat split; auto. intros [H|H]; contradiction. }
    destruct Hside as [(-> & -> & Hk) | [(-> & -> & Hk) | (-> & -> & Hk)]].
    + split; [lia |]. split.
      * intros H. constructor; [exact Hk |]. apply IHeq. lia.
      * intros H. inversion H as [|? ? _ Hts]; subst. apply IHeq in Hts. lia.
    + split; [lia |]. split.
      * intros H. constructor; [exact Hk |]. apply IHeq. lia.
      * intros H. inversion H as [|? ? _ Hts]; subst. apply IHeq in Hts. lia.
    + split; [lia |]. split.
      * intros H. lia.
      * intros H. inversion H; subst. contradiction.
Qed.

(** X22.  [get_trade_count] leaves the tracker as it was and counts each
    trade at most once: the buys and the sells together never exceed the
    ledger, and make up all of it exactly when every recorded side is
    "buy" or "sell"; a trade recorded under any other side is in neither
    count. *)
Theorem trade_count_partitions (self : PnLTracker.t) :
  let ts := PnLTracker.trades self in
  exists num_buys num_sells,
    PnLTracker.get_trade_count self = (Ok (num_buys, num_sells), self) /\
    (num_buys + num_sells <= length ts)%nat /\
    ((num_buys + num_sells = length ts)%nat <-> Forall known_side ts).
Proof.
  intros ts.
  exists (PnLTracker.count_side "buy" ts), (PnLTracker.count_side "sell" ts).
  split; [reflexivity |]. apply count_sides_partition.
Qed.


(** ** PnLTracker.get_pnl_decomposition *)

Lemma get_adverse_selection_cost_returns (self : PnLTracker.t) :
  exists r, PnLTracker.get_adverse_selection_cost self = (Ok r, self).
Proof.
  rewrite get_adverse_selection_cost_unfold. cbv zeta.
  destruct (Nat.ltb_spec (length (PnLTracker.trades self)) 2) as [_|Hlen].
  - eexists. reflexivity.
  - destruct (PnLTracker.trades self) as [|t rest]; [simpl in Hlen; lia |].
    replace (length (t :: rest) - 1)%nat with (length rest) by (simpl; lia).
    destruct (adverse_loop_sum rest t 0 self) as (r & Hr & _).
    rewrite Hr. eexists. reflexivity.
Qed.

Lemma get_pnl_decomposition_returns (self : PnLTracker.t) :
  exists d spread inventory adverse,
    PnLTracker.get_pnl_decomposition self = (Ok d, self) /\
    PnLTracker.get_spread_capture self = (Ok spread, self) /\
    PnLTracker.get_inventory_pnl self = (Ok inventory, self) /\
    PnLTracker.get_adverse_selection_cost self = (Ok adverse, self) /\
    d = PnLTracker.mk_decomposition spread inventory adverse
          (spread + inventory + adverse).
Proof.
  destruct (get_inventory_pnl_returns self) as (inventory & Hi & _).
  destruct (get_adverse_selection_cost_returns self) as (adverse & Ha).
  unfold PnLTracker.get_pnl_decomposition.
  unfold bind at 1. unfold PnLTracker.get_spread_capture at 1.
  unfold bind at 1. unfold gets at 1. unfold ret at 1.
  unfold bind at 1. rewrite Hi.
  unfold bind at 1. rewrite Ha.
  do 4 eexists. split; [reflexivity |]. split; [reflexivity |].
  repeat split.
Qed.

(** X24.  [get_pnl_decomposition] returns for every ledger (no estimator
    raises) and leaves the tracker as it was; its three components are what
    the three estimators return, and its total is their sum. *)
Theorem decomposition_closes (self : PnLTracker.t) :
  exists d spread inventory adverse,
    PnLTracker.get_pnl_decomposition self = (Ok d, self) /\
    PnLTracker.get_spread_capture self = (Ok spread, self) /\
    PnLTracker.get_inventory_pnl self = (Ok inventory, self) /\
    PnLTracker.get_adverse_selection_cost self = (Ok adverse, self) /\
    PnLTracker.d_spread_capture d = spread /\
    PnLTracker.d_inventory_pnl d = inventory /\
    PnLTracker.d_adverse_selection d = adverse /\
    PnLTracker.d_total_pnl d = spread + inventory + adverse.
Proof.
  destruct (get_pnl_decomposition_returns self)
    as (d & spread & inventory & adverse & Hd & Hs & Hi & Ha & ->).
  exists (PnLTracker.mk_decomposition spread inventory adverse
            (spread + inventory + adverse)), spread, inventory, adverse.
  repeat split; assumption.
Qed.

(** ** MarketSimulator.get_summary *)

Lemma py_index_last {A} (l : list A) (a : A) :
  py_index (a :: l) (length (a :: l) - 1) = Ok (last l a).
Proof.
  unfold py_index.
  replace (length (a :: l) - 1)%nat with (length l) by (simpl; lia).
  revert a. induction l as [|b l IH]; intros a; [reflexivity |].
  simpl length.
  change (nth_error (a :: b :: l) (S (length l)))
    with (nth_error (b :: l) (length l)).
  rewrite last_cons_default. apply IH.
Qed.

Lemma get_trade_count_returns (self : PnLTracker.t) :
  PnLTracker.get_trade_count self
  = (Ok (PnLTracker.count_side "buy" (PnLTracker.trades self),
         PnLTracker.count_side "sell" (PnLTracker.trades self)), self).
Proof. reflexivity. Qed.

Lemma set_pnl_tracker_same (sim : MarketSimulator.t) :
  MarketSimulator.set_pnl_tracker (MarketSimulator.pnl_tracker sim) sim = sim.
Proof. destruct sim. reflexivity. Qed.

(** X25.  [get_summary] never raises and leaves the simulator as it was.
    On an empty history it returns the empty summary.  Otherwise the number
    of steps is the length of the history, the number of trades is the buys
    plus the sells and never exceeds the ledger, and the final figures are
    those of the last record.  The "initial" mid is the mid of the first
    record, taken after that step's price move, so the price change is the
    move from the end of the first step to the end of the last: after a
    single step it is zero. *)
Theorem summary_spec (sim : MarketSimulator.t) :
  match MarketSimulator.history sim with
  | [] => MarketSimulator.get_summary sim = (Ok None, sim)
  | first :: rest =>
      exists sm,
        MarketSimulator.get_summary sim = (Ok (Some sm), sim) /\
        MarketSimulator.sm_total_steps sm = length (MarketSimulator.history sim) /\
        MarketSimulator.sm_final_time sm = MarketSimulator.current_time sim /\
        MarketSimulator.sm_initial_mid sm = MarketSimulator.sd_mid_price first /\
        MarketSimulator.sm_final_mid sm
        = MarketSimulator.sd_mid_price (last rest first) /\
        MarketSimulator.sm_final_inventory sm
        = MarketSimulator.sd_inventory (last rest first) /\
        MarketSimulator.sm_price_change sm
        = MarketSimulator.sd_mid_price (last rest first)
          - MarketSimulator.sd_mid_price first /\
        (rest = [] -> MarketSimulator.sm_price_change sm == 0) /\
        MarketSimulator.sm_num_trades sm
        = (MarketSimulator.sm_num_buys sm + MarketSimulator.sm_num_sells sm)%nat /\
        (MarketSimulator.sm_num_trades sm
         <= length (PnLTracker.trades (MarketSimulator.pnl_tracker sim)))%nat
  end.
Proof.
  destruct (MarketSimulator.history sim) as [|first rest] eqn:Hh.
  - unfold MarketSimulator.get_summary, bind, gets. rewrite Hh. reflexivity.
  - destruct (get_pnl_decomposition_returns (MarketSimulator.pnl_tracker sim))
      as (d & spread & inventory & adverse & Hd & _).
    unfold MarketSimulator.get_summary.
    unfold bind at 1. unfold gets at 1. rewrite Hh.
    unfold bind at 1. unfold zoom at 1. rewrite Hd. rewrite set_pnl_tracker_same.
    unfold bind at 1. unfold zoom at 1. rewrite get_trade_count_returns.
    rewrite set_pnl_tracker_same.
    unfold bind at 1. unfold lift at 1. rewrite py_index_last.
    unfold bind, lift, gets, ret. simpl py_index.
    eexists. split; [reflexivity |]. cbn -[last Qminus].
    repeat split.
    + intros ->. simpl. ring.
    + apply count_sides_partition.
Qed.

(** ** Every trade of a simulation is counted *)

(** X26.  The simulator records trades under the sides "buy" and "sell"
    only.  So from a ledger whose sides are all of these two (an empty one,
    for instance), after every step of any simulation the buy and sell
    counts of [get_trade_count] add up to the whole ledger. *)
Theorem simulated_trades_all_counted {NP : NumpyRandom}
    (calls : list step_args) (g : rng) (sim : MarketSimulator.t) :
  Forall known_side (PnLTracker.trades (MarketSimulator.pnl_tracker sim)) ->
  Forall (fun w =>
            let tracker := MarketSimulator.pnl_tracker (snd w) in
            Forall known_side (PnLTracker.trades tracker) /\
            exists num_buys num_sells,
              PnLTracker.get_trade_count tracker = (Ok (num_buys, num_sells), tracker) /\
              (num_buys + num_sells)%nat = length (PnLTracker.trades tracker))
         (step_trace calls (g, sim)).
Proof.
  revert g sim.
  induction calls as [|[[volatility arrival_rate] dt] rest IH];
    intros g sim Hknown; simpl.
  - constructor.
  - destruct (get_quotes_returns (MarketSimulator.market_maker sim)
                                 (MarketSimulator.order_book sim))
      as ([[[bid_price bid_size] ask_price] ask_size] & Hq).
    pose proof (step_trade_cases volatility arrival_rate dt g sim
                  bid_price bid_size ask_price ask_size Hq) as H.
    cbv zeta in H.
    destruct (MarketSimulator.step volatility arrival_rate dt (g, sim))
      as [r [g' sim']].
    simpl in *.
    assert (Hnext : Forall known_side
                      (PnLTracker.trades (MarketSimulator.pnl_tracker sim'))).
    { destruct H as [(_ & Ht & _) | [(_ & _ & Ht & _) | (_ & _ & Ht & _)]];
        rewrite Ht.
      - exact Hknown.
      - apply Forall_app. split; [exact Hknown |].
        constructor; [right; reflexivity | constructor].
      - apply Forall_app. split; [exact Hknown |].
        constructor; [left; reflexivity | constructor]. }
    constructor; [| apply IH; exact Hnext].
    split; [exact Hnext |].
    do 2 eexists. split; [apply get_trade_count_returns |].
    apply count_sides_partition. exact Hnext.
Qed.

Lemma simulated_trades_all_counted_witness :
  Forall (fun w =>
            let tracker := MarketSimulator.pnl_tracker (snd w) in
            Forall known_side (PnLTracker.trades tracker) /\
            exists num_buys num_sells,
              PnLTracker.get_trade_count tracker = (Ok (num_buys, num_sells), tracker) /\
              (num_buys + num_sells)%nat = length (PnLTracker.trades tracker))
         (@step_trace counter_generator test_calls (0%Z, test_simulator)).
Proof.
  apply (@simulated_trades_all_counted counter_generator test_calls 0%Z test_simulator).
  constructor.
Defined.
